(** * OptionUniverseSelectionModel

    A shallow embedding of
    [Algorithm.Framework/Selection/OptionUniverseSelectionModel.py]
    and the properties of its refresh policy.

    The Python class runs inside a host engine.  Its methods read and write
    three kinds of objects: the model object itself ([self]), the host
    algorithm ([algorithm]) and the security objects of the host.  They are
    modelled by one explicit [World] that every method threads through, with
    Python exceptions as an error result. *)

From Stdlib Require Import ZArith Bool.
From stdpp Require Import base tactics option list strings.

Set Warnings "-register-all".

Open Scope string_scope.
Open Scope Z_scope.
Open Scope list_scope.

(** ** Python datetime values

    A [datetime] is counted in microseconds since [datetime.min]
    (0001-01-01T00:00:00), a [date] in days since [date.min], a [timedelta]
    in microseconds.  Years run from 1 to 9999, so there are 3652059 days. *)

Module PyTime.

Definition us_per_day : Z := 86400000000.
Definition max_days : Z := 3652059.

(** [nextRefreshTimeUtc] first holds a [datetime] and then a [date]. *)
Inductive t :=
| DateTime (us : Z)
| Date (days : Z).

Definition datetime_min : t := DateTime 0.

Definition representable (us : Z) : bool :=
  (0 <=? us) && (us <? max_days * us_per_day).

(** [datetime + timedelta]; Python raises [OverflowError] when the sum
    leaves the range of years 1..9999. *)
Definition add (dt : Z) (delta : Z) : option Z :=
  let s := dt + delta in
  if representable s then Some s else None.

(** [datetime.date()]: the calendar day, the time of day dropped. *)
Definition date (dt : Z) : t := Date (dt / us_per_day).

End PyTime.

(** ** Host object model *)

Module SecurityType.
Inductive t := Base | Equity | Option | Commodity | Forex | Future | Cfd | Crypto.

#[global] Instance eq_dec : EqDecision t.
Proof. solve_decision. Defined.
End SecurityType.

Module OptionRight.
Inductive t := Call | Put.

#[global] Instance eq_dec : EqDecision t.
Proof. solve_decision. Defined.
End OptionRight.

Module OptionStyle.
Inductive t := American | European.

#[global] Instance eq_dec : EqDecision t.
Proof. solve_decision. Defined.
End OptionStyle.

(** Modelled from the spec: the host's security identifier.  A symbol has a
    security-type tag and a market identifier; a symbol of a specific
    contract has an expiry date, strike, right and style, and the symbol of
    a whole chain has the default date. *)
Module SecurityIdentifier.
Record t := Build {
  Symbol : string;
  Market : string;
  SecurityType : SecurityType.t;
  Date : Z;
  StrikePrice : Z;
  OptionRight : OptionRight.t;
  OptionStyle : OptionStyle.t
}.

Definition DefaultDate : Z := 0.

#[global] Instance eq_dec : EqDecision t.
Proof. solve_decision. Defined.

Definition GenerateEquity (ticker market : string) : t :=
  Build ticker market SecurityType.Equity DefaultDate 0 OptionRight.Call OptionStyle.American.

Definition GenerateOption (expiry : Z) (underlying : t) (market : string)
    (strike : Z) (right : OptionRight.t) (style : OptionStyle.t) : t :=
  Build (Symbol underlying) market SecurityType.Option expiry strike right style.

Definition GenerateBase (ty : SecurityType.t) (ticker market : string) : t :=
  Build ticker market ty DefaultDate 0 OptionRight.Call OptionStyle.American.
End SecurityIdentifier.

(** Modelled from the spec: the host's [Symbol].  It carries its identifier,
    its display value and, for a derivative, a reference to its underlying. *)
Module Symbol.
Inductive t := Build {
  ID : SecurityIdentifier.t;
  Value : string;
  Underlying : option t
}.

Definition SecurityType (s : t) : SecurityType.t :=
  SecurityIdentifier.SecurityType (ID s).

Definition HasUnderlying (s : t) : bool :=
  match Underlying s with Some _ => true | None => false end.

(** Modelled from the spec: the host compares symbols by identifier; the
    display value is not part of the identity.  The identifier of a
    derivative includes that of its underlying. *)
Fixpoint eqb (a b : t) : bool :=
  match a, b with
  | Build ida _ ua, Build idb _ ub =>
      bool_decide (ida = idb) &&
      match ua, ub with
      | Some u, Some v => eqb u v
      | None, None => true
      | _, _ => false
      end
  end.

(** [==] and set membership on [optionSymbol.Underlying], which is [None]
    for a symbol without underlying. *)
Definition opt_eqb (a b : option t) : bool :=
  match a, b with
  | Some u, Some v => eqb u v
  | None, None => true
  | _, _ => false
  end.

(** Modelled from the spec: a canonical symbol stands for the whole chain
    of an underlying, not for one contract; it has no contract date. *)
Definition IsCanonical (s : t) : bool :=
  (bool_decide (SecurityType s = SecurityType.Future)
   || (bool_decide (SecurityType s = SecurityType.Option) && HasUnderlying s))
  && (SecurityIdentifier.Date (ID s) =? SecurityIdentifier.DefaultDate).

(** Modelled from the spec: [Symbol.Create(ticker, securityType, market,
    alias)].  For an option it gives the canonical symbol of the chain on
    the equity [ticker] of the market, with [alias] as its display value. *)
Definition Create (ticker : string) (securityType : SecurityType.t)
    (market : string) (alias : string) : t :=
  match securityType with
  | SecurityType.Option =>
      let underlying := SecurityIdentifier.GenerateEquity ticker market in
      let sid := SecurityIdentifier.GenerateOption
                   SecurityIdentifier.DefaultDate underlying market 0 OptionRight.Call OptionStyle.American in
      Build sid alias (Some (Build underlying ticker None))
  | _ =>
      Build (SecurityIdentifier.GenerateBase securityType ticker market) alias None
  end.
End Symbol.

Module Resolution.
Inductive t := Tick | Second | Minute | Hour | Daily.
End Resolution.

(** Modelled from the spec: the settings bundle (resolution, fill-forward
    flag, leverage, extended-hours flag).  It is passed through as it is. *)
Module UniverseSettings.
Record t := Build {
  Resolution : Resolution.t;
  Leverage : Z;
  FillForward : bool;
  ExtendedMarketHours : bool
}.
End UniverseSettings.

(** A security initializer is a callback of the host; the model only passes
    it on, so a name stands for it. *)
Inductive ISecurityInitializer := Initializer (name : string).

Record MarketHoursEntry := {
  ExchangeHours : string;
  DataTimeZone : string
}.

Inductive SymbolProperties := Properties (description : string).

(** The bound method [self.Filter], as the value handed to [SetFilter]. *)
Inductive Callable := self_Filter.

(** The arguments of [SecurityManager.CreateSecurity], in call order. *)
Record CreateSecurityArgs := {
  factoryType : string;
  securityPortfolioManager : string;
  subscriptionManager : string;
  exchangeHours : string;
  dataTimeZone : string;
  symbolProperties : SymbolProperties;
  securityInitializer_arg : ISecurityInitializer;
  symbol_arg : Symbol.t;
  resolution : Resolution.t;
  fillDataForward : bool;
  leverage : Z;
  extendedMarketHours : bool;
  isInternalFeed : bool;
  isCustomData : bool;
  isLiveMode : bool;
  addToSymbolCache : bool;
  isFilteredSubscription : bool
}.

(** Modelled from the spec: a security object of the host, with the two
    attributes the model writes. *)
Module Security.
Record t := Build {
  Symbol : Symbol.t;
  IsTradable : bool;
  ContractFilter : option Callable;
  Config : option CreateSecurityArgs
}.

Definition with_filter (f : Callable) (s : t) : t :=
  Build (Symbol s) (IsTradable s) (Some f) (Config s).

Definition with_tradable (b : bool) (s : t) : t :=
  Build (Symbol s) b (ContractFilter s) (Config s).
End Security.

(** Security objects live in a heap and are named by their address. *)
Definition SecRef := nat.

(** Modelled from the spec: the registry [algorithm.Securities] is keyed by
    symbol; an element of its enumeration pairs a [Key] with the security
    registered under it. *)
Module KeyValuePair.
Record t := Build {
  Key : Symbol.t;
  Value : SecRef
}.
End KeyValuePair.

(** [OptionChainUniverse(option, settings, initializer, liveMode)]. *)
Module OptionChainUniverse.
Record t := Build {
  Option : SecRef;
  UniverseSettings : UniverseSettings.t;
  SecurityInitializer : ISecurityInitializer;
  LiveMode : bool
}.
End OptionChainUniverse.

(** The four messages the model logs.  Each is an f-string over the time
    and, for three of them, the symbol; the record keeps these arguments
    instead of their rendering. *)
Inductive LogMessage :=
| RefreshingUniverses (utcTime : Z)
| CreatingOptionChain (utcTime : Z) (symbol : Symbol.t)
| ResolvedExistingOptionChainSecurity (utcTime : Z) (symbol : Symbol.t)
| CreatingOptionChainSecurity (utcTime : Z) (symbol : Symbol.t).

(** What the model does to the host, in the order it does it. *)
Inductive HostCall :=
| Log (message : LogMessage)
| CreateSecurity (r : SecRef) (args : CreateSecurityArgs)
| SetFilter (r : SecRef) (f : Callable)
| SetIsTradable (r : SecRef) (b : bool).

Module QCAlgorithm.
Record t := Build {
  UtcTime : Z;
  UniverseSettings : UniverseSettings.t;
  SecurityInitializer : ISecurityInitializer;
  Securities : list KeyValuePair.t;
  LiveMode : bool;
  Portfolio : string;
  SubscriptionManager : string
}.
End QCAlgorithm.

(** ** The model object and the world *)

(** The fields [__init__] sets.  [refreshInterval] is a [timedelta], the
    selector a function of the time, and [None] for the settings or the
    initializer stands for Python's [None]. *)
Record OptionUniverseSelectionModel := {
  nextRefreshTimeUtc : PyTime.t;
  refreshInterval : Z;
  optionChainSymbolSelector : Z -> list Symbol.t;
  universeSettings : option UniverseSettings.t;
  securityInitializer : option ISecurityInitializer
}.

Definition __init__ (refreshInterval : Z)
    (optionChainSymbolSelector : Z -> list Symbol.t)
    (universeSettings : option UniverseSettings.t)
    (securityInitializer : option ISecurityInitializer)
    : OptionUniverseSelectionModel :=
  {| nextRefreshTimeUtc := PyTime.datetime_min;
     refreshInterval := refreshInterval;
     optionChainSymbolSelector := optionChainSymbolSelector;
     universeSettings := universeSettings;
     securityInitializer := securityInitializer |}.

(** Modelled from the spec: the host's reference databases, total lookups
    by market, underlying and security type. *)
Record ReferenceData := {
  MarketHoursDatabase_GetEntry :
    string -> option Symbol.t -> SecurityType.t -> MarketHoursEntry;
  SymbolPropertiesDatabase_GetSymbolProperties :
    string -> option Symbol.t -> SecurityType.t -> string -> SymbolProperties;
  CashBook_AccountCurrency : string
}.

Record World := {
  self : OptionUniverseSelectionModel;
  algorithm : QCAlgorithm.t;
  heap : list Security.t;
  calls : list HostCall;
  data : ReferenceData
}.

Inductive PyException :=
| ValueError (message : string)
| AttributeError (message : string)
| TypeError (message : string)
| OverflowError (message : string).

Inductive Result (A : Type) :=
| Ok (a : A)
| Raise (e : PyException).
Arguments Ok {A} a.
Arguments Raise {A} e.

(** A method body: it reads and writes the world and returns or raises.
    What it wrote before raising stays written. *)
Definition M (A : Type) : Type := World -> Result A * World.

Definition ret {A} (a : A) : M A := fun w => (Ok a, w).

Definition raise {A} (e : PyException) : M A := fun w => (Raise e, w).

Definition bind {A B} (m : M A) (k : A -> M B) : M B :=
  fun w => match m w with
           | (Ok a, w') => k a w'
           | (Raise e, w') => (Raise e, w')
           end.

Notation "'do' x <- m ; k" := (bind m (fun x => k))
  (at level 10, x name, m at level 100, k at level 200).
Notation "'do_' m ; k" := (bind m (fun _ => k))
  (at level 10, m at level 100, k at level 200).

(** Reading an attribute of [self] or of [algorithm]. *)
Definition self_get {A} (field : OptionUniverseSelectionModel -> A) : M A :=
  fun w => (Ok (field (self w)), w).

Definition algorithm_get {A} (field : QCAlgorithm.t -> A) : M A :=
  fun w => (Ok (field (algorithm w)), w).

Definition data_get {A} (field : ReferenceData -> A) : M A :=
  fun w => (Ok (field (data w)), w).

Definition set_nextRefreshTimeUtc (v : PyTime.t) : M unit :=
  fun w =>
    (Ok tt,
     {| self := {| nextRefreshTimeUtc := v;
                   refreshInterval := refreshInterval (self w);
                   optionChainSymbolSelector := optionChainSymbolSelector (self w);
                   universeSettings := universeSettings (self w);
                   securityInitializer := securityInitializer (self w) |};
        algorithm := algorithm w;
        heap := heap w;
        calls := calls w;
        data := data w |}).

Definition record_call (c : HostCall) (w : World) : World :=
  {| self := self w; algorithm := algorithm w; heap := heap w;
     calls := calls w ++ [c]; data := data w |}.

Definition with_heap (h : list Security.t) (w : World) : World :=
  {| self := self w; algorithm := algorithm w; heap := h;
     calls := calls w; data := data w |}.

(** [algorithm.Log(message)]. *)
Definition algorithm_Log (message : LogMessage) : M unit :=
  fun w => (Ok tt, record_call (Log message) w).

(** Modelled from the spec: [SecurityManager.CreateSecurity], the host's
    factory.  It builds a new security object for the symbol from the
    arguments it is given; the object is tradable and has no contract
    filter until the caller configures it. *)
Definition SecurityManager_CreateSecurity (args : CreateSecurityArgs) : M SecRef :=
  fun w =>
    let r := length (heap w) in
    let security := Security.Build (symbol_arg args) true None (Some args) in
    (Ok r, record_call (CreateSecurity r args) (with_heap (heap w ++ [security]) w)).

(** What a Python name can be bound to in [CreateOptionChain]: a security
    object, or an element of the enumeration of [algorithm.Securities]. *)
Inductive PyObject :=
| PySecurity (r : SecRef)
| PyKeyValuePair (kv : KeyValuePair.t).

(** [optionChain.SetFilter(f)].  A security takes the filter; a key-value
    pair has a [Key] and a [Value] and no such method. *)
Definition SetFilter_method (optionChain : PyObject) (f : Callable) : M unit :=
  match optionChain with
  | PySecurity r =>
      fun w => (Ok tt, record_call (SetFilter r f)
                         (with_heap (alter (Security.with_filter f) r (heap w)) w))
  | PyKeyValuePair _ =>
      raise (AttributeError "'KeyValuePair[Symbol,Security]' object has no attribute 'SetFilter'")
  end.

(** [optionChain.IsTradable = b]. *)
Definition set_IsTradable (optionChain : PyObject) (b : bool) : M unit :=
  match optionChain with
  | PySecurity r =>
      fun w => (Ok tt, record_call (SetIsTradable r b)
                         (with_heap (alter (Security.with_tradable b) r (heap w)) w))
  | PyKeyValuePair _ =>
      raise (AttributeError "'KeyValuePair[Symbol,Security]' object has no attribute 'IsTradable'")
  end.

(** The constructor [OptionChainUniverse(option, settings, initializer,
    liveMode)], which takes a security. *)
Definition new_OptionChainUniverse (optionChain : PyObject)
    (settings : UniverseSettings.t) (initializer : ISecurityInitializer)
    (liveMode : bool) : M OptionChainUniverse.t :=
  match optionChain with
  | PySecurity r => ret (OptionChainUniverse.Build r settings initializer liveMode)
  | PyKeyValuePair _ =>
      raise (TypeError "No method matches given arguments for OptionChainUniverse")
  end.

(** ** The methods of the class *)

Definition GetNextRefreshTimeUtc : M PyTime.t :=
  fun w => (Ok (nextRefreshTimeUtc (self w)), w).

(** [Filter(self, filter)]: the option chain universe filter, a no-op. *)
Definition Filter {A : Type} (filter : A) : M A :=
  ret filter.

Definition call {A : Type} (f : Callable) (x : A) : M A :=
  match f with
  | self_Filter => Filter x
  end.

Definition CreateOptionChainSecurity (symbol : Symbol.t)
    (settings : UniverseSettings.t) (initializer : ISecurityInitializer)
    : M SecRef :=
  do utcTime <- algorithm_get QCAlgorithm.UtcTime;
  do_ algorithm_Log (CreatingOptionChainSecurity utcTime symbol);
  let market := SecurityIdentifier.Market (Symbol.ID symbol) in
  let underlying := Symbol.Underlying symbol in
  do getEntry <- data_get MarketHoursDatabase_GetEntry;
  let marketHoursEntry := getEntry market underlying SecurityType.Option in
  do getSymbolProperties <- data_get SymbolPropertiesDatabase_GetSymbolProperties;
  do accountCurrency <- data_get CashBook_AccountCurrency;
  let symbolProperties :=
    getSymbolProperties market underlying SecurityType.Option accountCurrency in
  do portfolio <- algorithm_get QCAlgorithm.Portfolio;
  do subscriptions <- algorithm_get QCAlgorithm.SubscriptionManager;
  do liveMode <- algorithm_get QCAlgorithm.LiveMode;
  SecurityManager_CreateSecurity
    {| factoryType := "ZipEntryName";
       securityPortfolioManager := portfolio;
       subscriptionManager := subscriptions;
       exchangeHours := ExchangeHours marketHoursEntry;
       dataTimeZone := DataTimeZone marketHoursEntry;
       symbolProperties := symbolProperties;
       securityInitializer_arg := initializer;
       symbol_arg := symbol;
       resolution := UniverseSettings.Resolution settings;
       fillDataForward := UniverseSettings.FillForward settings;
       leverage := UniverseSettings.Leverage settings;
       extendedMarketHours := UniverseSettings.ExtendedMarketHours settings;
       isInternalFeed := false;
       isCustomData := false;
       isLiveMode := liveMode;
       addToSymbolCache := false;
       isFilteredSubscription := false |}.

(** [underlying.Value]: the underlying of a symbol without one is [None],
    which has no attribute. *)
Definition underlying_Value (underlying : option Symbol.t) : M string :=
  match underlying with
  | Some u => ret (Symbol.Value u)
  | None => raise (AttributeError "'NoneType' object has no attribute 'Value'")
  end.

(** [self.x if self.x is not None else algorithm.X]. *)
Definition resolve_default {A} (explicit : OptionUniverseSelectionModel -> option A)
    (default : QCAlgorithm.t -> A) : M A :=
  do x <- self_get explicit;
  match x with
  | Some v => ret v
  | None => algorithm_get default
  end.

Definition CreateOptionChain (symbol : Symbol.t) : M OptionChainUniverse.t :=
  if negb (bool_decide (Symbol.SecurityType symbol = SecurityType.Option)) then
    raise (ValueError "CreateOptionChain requires an option symbol.")
  else
  do utcTime <- algorithm_get QCAlgorithm.UtcTime;
  do_ algorithm_Log (CreatingOptionChain utcTime symbol);
  (* rewrite non-canonical symbols to be canonical *)
  let market := SecurityIdentifier.Market (Symbol.ID symbol) in
  let underlying := Symbol.Underlying symbol in
  do symbol <-
    (if negb (Symbol.IsCanonical symbol) then
       do value <- underlying_Value underlying;
       let alias := "?" +:+ value in
       do ticker <- underlying_Value underlying;
       ret (Symbol.Create ticker SecurityType.Option market alias)
     else ret symbol);
  (* resolve defaults if not specified *)
  do settings <- resolve_default universeSettings QCAlgorithm.UniverseSettings;
  do initializer <- resolve_default securityInitializer QCAlgorithm.SecurityInitializer;
  (* create canonical security object, but don't duplicate if it already exists *)
  do registry <- algorithm_get QCAlgorithm.Securities;
  let securities :=
    filter (fun s => Is_true (Symbol.eqb (KeyValuePair.Key s) symbol)) registry in
  do optionChain <-
    match securities with
    | [] =>
        do r <- CreateOptionChainSecurity symbol settings initializer;
        ret (PySecurity r)
    | s0 :: _ =>
        let optionChain := PyKeyValuePair s0 in
        do utcTime <- algorithm_get QCAlgorithm.UtcTime;
        do_ algorithm_Log (ResolvedExistingOptionChainSecurity utcTime symbol);
        ret optionChain
    end;
  (* set the option chain contract filter function *)
  do_ SetFilter_method optionChain self_Filter;
  (* force option chain security to not be directly tradable AFTER it's
     configured to ensure it's not overwritten *)
  do_ set_IsTradable optionChain false;
  do liveMode <- algorithm_get QCAlgorithm.LiveMode;
  new_OptionChainUniverse optionChain settings initializer liveMode.

(** ** [CreateUniverses], a generator

    The body of [CreateUniverses] contains [yield], so calling it runs
    nothing: the call returns a generator object, and the body runs, up to
    its next [yield], each time the caller asks the generator for an
    element. *)

(** The set [uniqueUnderlyingSymbols]; its elements are compared as the
    host compares symbols. *)
Definition SymbolSet := list (option Symbol.t).

Definition set_contains (x : option Symbol.t) (s : SymbolSet) : bool :=
  existsb (Symbol.opt_eqb x) s.

Definition set_add (x : option Symbol.t) (s : SymbolSet) : SymbolSet :=
  if set_contains x s then s else x :: s.

(** Where a generator of [CreateUniverses] stands: not started; suspended
    at the [yield], with the symbols the [for] loop has not visited yet and
    the set of underlyings; or finished. *)
Inductive Generator :=
| Created
| Suspended (remaining : list Symbol.t) (uniqueUnderlyingSymbols : SymbolSet)
| Closed.

(** What asking a generator for its next element gives. *)
Inductive Resumed :=
| Yield (universe : OptionChainUniverse.t)
| StopIteration
| Raised (e : PyException).

Definition CreateUniverses : M Generator := ret Created.

(** The [for] loop, run until it yields, raises or ends. *)
Fixpoint CreateUniverses_loop (symbols : list Symbol.t)
    (uniqueUnderlyingSymbols : SymbolSet) (w : World)
    : Resumed * Generator * World :=
  match symbols with
  | [] => (StopIteration, Closed, w)
  | optionSymbol :: rest =>
      if negb (bool_decide (Symbol.SecurityType optionSymbol = SecurityType.Option)) then
        (Raised (ValueError "optionChainSymbolSelector must return option symbols."),
         Closed, w)
      else
        (* prevent creating duplicate option chains -- one per underlying *)
        if negb (set_contains (Symbol.Underlying optionSymbol) uniqueUnderlyingSymbols) then
          let uniqueUnderlyingSymbols :=
            set_add (Symbol.Underlying optionSymbol) uniqueUnderlyingSymbols in
          match CreateOptionChain optionSymbol w with
          | (Ok universe, w') => (Yield universe, Suspended rest uniqueUnderlyingSymbols, w')
          | (Raise e, w') => (Raised e, Closed, w')
          end
        else CreateUniverses_loop rest uniqueUnderlyingSymbols w
  end.

(** The head of the body, up to the [for] loop. *)
Definition CreateUniverses_start : M (list Symbol.t) :=
  do utcTime <- algorithm_get QCAlgorithm.UtcTime;
  do interval <- self_get refreshInterval;
  do sum <-
    match PyTime.add utcTime interval with
    | Some sum => ret sum
    | None => raise (OverflowError "date value out of range")
    end;
  do_ set_nextRefreshTimeUtc (PyTime.date sum);
  do utcTime <- algorithm_get QCAlgorithm.UtcTime;
  do_ algorithm_Log (RefreshingUniverses utcTime);
  do selector <- self_get optionChainSymbolSelector;
  do utcTime <- algorithm_get QCAlgorithm.UtcTime;
  ret (selector utcTime).

(** [next(generator)]. *)
Definition next (g : Generator) (w : World) : Resumed * Generator * World :=
  match g with
  | Created =>
      match CreateUniverses_start w with
      | (Ok symbols, w') => CreateUniverses_loop symbols [] w'
      | (Raise e, w') => (Raised e, Closed, w')
      end
  | Suspended remaining uniqueUnderlyingSymbols =>
      CreateUniverses_loop remaining uniqueUnderlyingSymbols w
  | Closed => (StopIteration, Closed, w)
  end.

(** How an iteration over the generator ends. *)
Inductive Outcome :=
| Exhausted
| Failed (e : PyException).

(** [for universe in generator], collecting the universes: the caller asks
    for elements until the generator stops or raises.  [fuel] bounds the
    number of requests. *)
Fixpoint iterate (fuel : nat) (g : Generator) (w : World)
    : option (list OptionChainUniverse.t * Outcome * World) :=
  match fuel with
  | O => None
  | S fuel =>
      match next g w with
      | (Yield universe, g', w') =>
          match iterate fuel g' w' with
          | Some (universes, outcome, w'') => Some (universe :: universes, outcome, w'')
          | None => None
          end
      | (StopIteration, _, w') => Some ([], Exhausted, w')
      | (Raised e, _, w') => Some ([], Failed e, w')
      end
  end.

(** The number of symbols a generator can still visit. *)
Definition pending (g : Generator) (w : World) : nat :=
  match g with
  | Created =>
      length (optionChainSymbolSelector (self w) (QCAlgorithm.UtcTime (algorithm w)))
  | Suspended remaining _ => length remaining
  | Closed => O
  end.

(** A whole refresh, as the host runs it: create the generator and iterate
    over it to its end. *)
Definition refresh (w : World)
    : option (list OptionChainUniverse.t * Outcome * World) :=
  match CreateUniverses w with
  | (Ok g, w') => iterate (S (pending g w')) g w'
  | (Raise e, w') => Some ([], Failed e, w')
  end.

(** ** Sample data *)

Module Sample.

Definition equity (ticker : string) : Symbol.t :=
  Symbol.Build (SecurityIdentifier.GenerateEquity ticker "usa") ticker None.

(** A specific option contract on an equity. *)
Definition contract (ticker : string) (expiry strike : Z) : Symbol.t :=
  Symbol.Build
    (SecurityIdentifier.GenerateOption expiry
       (SecurityIdentifier.GenerateEquity ticker "usa") "usa" strike
       OptionRight.Call OptionStyle.American)
    (ticker +:+ " C")
    (Some (equity ticker)).

(** The canonical option symbol of an equity. *)
Definition chain (ticker : string) : Symbol.t :=
  Symbol.Create ticker SecurityType.Option "usa" ("?" +:+ ticker).

Definition AAPL_1 : Symbol.t := contract "AAPL" 735000 100.
Definition AAPL_2 : Symbol.t := contract "AAPL" 735030 120.
Definition GOOG_1 : Symbol.t := contract "GOOG" 735000 500.
Definition MSFT : Symbol.t := equity "MSFT".

Definition hostSettings : UniverseSettings.t :=
  UniverseSettings.Build Resolution.Minute 2 true false.
Definition otherSettings : UniverseSettings.t :=
  UniverseSettings.Build Resolution.Daily 1 false true.

Definition hostInitializer : ISecurityInitializer := Initializer "brokerage".
Definition ownInitializer : ISecurityInitializer := Initializer "custom".

Definition refData : ReferenceData :=
  {| MarketHoursDatabase_GetEntry := fun _ _ _ =>
       {| ExchangeHours := "NYSE"; DataTimeZone := "America/New_York" |};
     SymbolPropertiesDatabase_GetSymbolProperties := fun _ _ _ _ =>
       Properties "equity option";
     CashBook_AccountCurrency := "USD" |}.

Definition one_day : Z := PyTime.us_per_day.

(** 2014-06-05 10:30:00 and 2014-06-05 23:59:59.999999, as microseconds. *)
Definition morning : Z := 735388 * PyTime.us_per_day + 37800000000.
Definition late : Z := 735388 * PyTime.us_per_day + 86399999999.

Definition host (utcTime : Z) (securities : list KeyValuePair.t) : QCAlgorithm.t :=
  QCAlgorithm.Build utcTime hostSettings hostInitializer securities false
    "portfolio" "subscriptions".

Definition world (model : OptionUniverseSelectionModel) (utcTime : Z)
    (securities : list KeyValuePair.t) (objects : list Security.t) : World :=
  {| self := model; algorithm := host utcTime securities;
     heap := objects; calls := []; data := refData |}.

Definition model (symbols : list Symbol.t) : OptionUniverseSelectionModel :=
  __init__ one_day (fun _ => symbols) None None.

(** A host that already holds the chain security of AAPL. *)
Definition AAPL_chain_security : Security.t :=
  Security.Build (chain "AAPL") true None None.

Definition AAPL_entry : KeyValuePair.t := KeyValuePair.Build (chain "AAPL") 0%nat.

(** The selector returns one contract of AAPL. *)
Definition one_contract : World := world (model [AAPL_1]) morning [] [].

(** The selector returns two contracts of AAPL and then the MSFT equity. *)
Definition two_contracts_then_equity : World :=
  world (model [AAPL_1; AAPL_2; MSFT]) morning [] [].

(** The selector returns the MSFT equity first. *)
Definition equity_first : World :=
  world (model [MSFT; AAPL_1; AAPL_2]) morning [] [].

(** The selector returns contracts of two underlyings, late in the day. *)
Definition two_underlyings : World :=
  world (model [AAPL_1; GOOG_1; AAPL_2]) late [] [].

(** The host already has the chain security of AAPL registered. *)
Definition chain_registered : World :=
  world (model [AAPL_1]) morning [AAPL_entry] [AAPL_chain_security].

(** The host replaces its default settings and initializer. *)
Definition with_host_defaults (settings : UniverseSettings.t)
    (initializer : ISecurityInitializer) (w : World) : World :=
  {| self := self w;
     algorithm :=
       QCAlgorithm.Build (QCAlgorithm.UtcTime (algorithm w)) settings initializer
         (QCAlgorithm.Securities (algorithm w)) (QCAlgorithm.LiveMode (algorithm w))
         (QCAlgorithm.Portfolio (algorithm w))
         (QCAlgorithm.SubscriptionManager (algorithm w));
     heap := heap w; calls := calls w; data := data w |}.

(** The host clock stands at the last representable microsecond. *)
Definition last_moment : Z := PyTime.max_days * PyTime.us_per_day - 1.

Definition at_last_moment : World := world (model [AAPL_1]) last_moment [] [].

(** The selector returns the MSFT equity, at the last representable
    microsecond. *)
Definition equity_at_last_moment : World :=
  world (model [MSFT]) last_moment [] [].

(** Settings and an initializer given to the constructor. *)
Definition explicitSettings : UniverseSettings.t :=
  UniverseSettings.Build Resolution.Hour 3 true true.
Definition explicitInitializer : ISecurityInitializer := Initializer "explicit".

Definition configured : World :=
  world (__init__ one_day (fun _ => [AAPL_1; GOOG_1])
           (Some explicitSettings) (Some explicitInitializer))
        morning [] [].

(** The selector returns nothing. *)
Definition nothing_selected : World := world (model []) morning [] [].

(** The selector returns a contract of AAPL three times, with one of GOOG
    in between. *)
Definition repeated_contracts : World :=
  world (model [AAPL_1; AAPL_2; GOOG_1; AAPL_1]) morning [] [].

(** A model with an interval of two days and ninety minutes. *)
Definition two_days_and_a_bit : World :=
  world (__init__ (2 * PyTime.us_per_day + 5400000000) (fun _ => [AAPL_1]) None None)
        morning [] [].

End Sample.

(** ** Definitions used to state the properties *)

(** The identifiers a symbol is compared by: its own, then those of its
    chain of underlyings. *)
Fixpoint identity (s : Symbol.t) : list SecurityIdentifier.t :=
  match s with
  | Symbol.Build id _ u =>
      id :: match u with
            | Some u' => identity u'
            | None => []
            end
  end.

Definition opt_identity (o : option Symbol.t) : option (list SecurityIdentifier.t) :=
  match o with
  | Some s => Some (identity s)
  | None => None
  end.



Definition is_option (s : Symbol.t) : Prop :=
  Symbol.SecurityType s = SecurityType.Option.

(** The symbols of a list whose underlying is met for the first time,
    given the underlyings already seen. *)
Fixpoint first_seen (symbols : list Symbol.t) (seen : SymbolSet) : list Symbol.t :=
  match symbols with
  | [] => []
  | x :: rest =>
      if set_contains (Symbol.Underlying x) seen
      then first_seen rest seen
      else x :: first_seen rest (set_add (Symbol.Underlying x) seen)
  end.

(** [CreateOptionChain] on each symbol of a list in turn, up to the first
    call that raises. *)
Fixpoint build_chains (symbols : list Symbol.t) (w : World)
    : list OptionChainUniverse.t * option PyException * World :=
  match symbols with
  | [] => ([], None, w)
  | x :: rest =>
      match CreateOptionChain x w with
      | (Ok universe, w') =>
          let '(universes, e, w'') := build_chains rest w' in
          (universe :: universes, e, w'')
      | (Raise e, w') => ([], Some e, w')
      end
  end.

(** The [for] loop run to its end in one go. *)
Fixpoint run_loop (symbols : list Symbol.t) (seen : SymbolSet) (w : World)
    : list OptionChainUniverse.t * Outcome * World :=
  match symbols with
  | [] => ([], Exhausted, w)
  | x :: rest =>
      if negb (bool_decide (Symbol.SecurityType x = SecurityType.Option)) then
        ([], Failed (ValueError "optionChainSymbolSelector must return option symbols."), w)
      else if negb (set_contains (Symbol.Underlying x) seen) then
        match CreateOptionChain x w with
        | (Ok universe, w') =>
            let '(universes, outcome, w'') :=
              run_loop rest (set_add (Symbol.Underlying x) seen) w' in
            (universe :: universes, outcome, w'')
        | (Raise e, w') => ([], Failed e, w')
        end
      else run_loop rest seen w
  end.

(** The world once the head of [CreateUniverses] has run. *)
Definition started (sum : Z) (w : World) : World :=
  record_call (Log (RefreshingUniverses (QCAlgorithm.UtcTime (algorithm w))))
    (snd (set_nextRefreshTimeUtc (PyTime.date sum) w)).

(** The construction-time fields of two model objects agree. *)
Definition same_configuration (m m' : OptionUniverseSelectionModel) : Prop :=
  refreshInterval m' = refreshInterval m /\
  optionChainSymbolSelector m' = optionChainSymbolSelector m /\
  universeSettings m' = universeSettings m /\
  securityInitializer m' = securityInitializer m.

(** The settings and the initializer a chain is built with in a world. *)
Definition effective_settings (w : World) : UniverseSettings.t :=
  match universeSettings (self w) with
  | Some s => s
  | None => QCAlgorithm.UniverseSettings (algorithm w)
  end.

Definition effective_initializer (w : World) : ISecurityInitializer :=
  match securityInitializer (self w) with
  | Some i => i
  | None => QCAlgorithm.SecurityInitializer (algorithm w)
  end.

(** The symbol [CreateOptionChain] works with after its rewriting step. *)
Definition rewritten (symbol : Symbol.t) (underlying : Symbol.t) : Symbol.t :=
  Symbol.Create (Symbol.Value underlying) SecurityType.Option
    (SecurityIdentifier.Market (Symbol.ID symbol))
    ("?" +:+ Symbol.Value underlying).

(** The outcome of the rewriting step: the symbol itself when it is
    canonical, else the canonical alias of its underlying; a symbol that is
    not canonical and has no underlying makes the step raise. *)
Definition canonical (symbol : Symbol.t) : Result Symbol.t :=
  if Symbol.IsCanonical symbol then Ok symbol
  else match Symbol.Underlying symbol with
       | Some underlying => Ok (rewritten symbol underlying)
       | None => Raise (AttributeError "'NoneType' object has no attribute 'Value'")
       end.

(** The registry entries [CreateOptionChain] selects for a symbol. *)
Definition registered (c : Symbol.t) (w : World) : list KeyValuePair.t :=
  filter (fun s => Is_true (Symbol.eqb (KeyValuePair.Key s) c))
         (QCAlgorithm.Securities (algorithm w)).

(** The arguments [CreateOptionChainSecurity] hands to the host's factory. *)
Definition chain_args (c : Symbol.t) (settings : UniverseSettings.t)
    (initializer : ISecurityInitializer) (w : World) : CreateSecurityArgs :=
  let entry := MarketHoursDatabase_GetEntry (data w)
                 (SecurityIdentifier.Market (Symbol.ID c)) (Symbol.Underlying c)
                 SecurityType.Option in
  {| factoryType := "ZipEntryName";
     securityPortfolioManager := QCAlgorithm.Portfolio (algorithm w);
     subscriptionManager := QCAlgorithm.SubscriptionManager (algorithm w);
     exchangeHours := ExchangeHours entry;
     dataTimeZone := DataTimeZone entry;
     symbolProperties :=
       SymbolPropertiesDatabase_GetSymbolProperties (data w)
         (SecurityIdentifier.Market (Symbol.ID c)) (Symbol.Underlying c)
         SecurityType.Option (CashBook_AccountCurrency (data w));
     securityInitializer_arg := initializer;
     symbol_arg := c;
     resolution := UniverseSettings.Resolution settings;
     fillDataForward := UniverseSettings.FillForward settings;
     leverage := UniverseSettings.Leverage settings;
     extendedMarketHours := UniverseSettings.ExtendedMarketHours settings;
     isInternalFeed := false;
     isCustomData := false;
     isLiveMode := QCAlgorithm.LiveMode (algorithm w);
     addToSymbolCache := false;
     isFilteredSubscription := false |}.

(** The world after a call of [CreateOptionChain] that built the chain
    security of the canonical symbol [c]. *)
Definition built (symbol c : Symbol.t) (w : World) : World :=
  let r := length (heap w) in
  let args := chain_args c (effective_settings w) (effective_initializer w) w in
  {| self := self w;
     algorithm := algorithm w;
     heap := heap w ++ [Security.Build c false (Some self_Filter) (Some args)];
     calls := calls w ++
       [Log (CreatingOptionChain (QCAlgorithm.UtcTime (algorithm w)) symbol);
        Log (CreatingOptionChainSecurity (QCAlgorithm.UtcTime (algorithm w)) c);
        CreateSecurity r args;
        SetFilter r self_Filter;
        SetIsTradable r false];
     data := data w |}.

(** The universe such a call returns. *)
Definition built_universe (w : World) : OptionChainUniverse.t :=
  OptionChainUniverse.Build (length (heap w))
    (effective_settings w) (effective_initializer w)
    (QCAlgorithm.LiveMode (algorithm w)).

Definition InvalidSelectorOutput : PyException :=
  ValueError "optionChainSymbolSelector must return option symbols.".

Definition InvalidSymbolKind : PyException :=
  ValueError "CreateOptionChain requires an option symbol.".

(** The same world, with another selector in the model. *)
Definition with_selector (selector : Z -> list Symbol.t) (w : World) : World :=
  {| self := {| nextRefreshTimeUtc := nextRefreshTimeUtc (self w);
                refreshInterval := refreshInterval (self w);
                optionChainSymbolSelector := selector;
                universeSettings := universeSettings (self w);
                securityInitializer := securityInitializer (self w) |};
     algorithm := algorithm w;
     heap := heap w;
     calls := calls w;
     data := data w |}.

(** The symbols [CreateOptionChain] was called with, read off the log:
    each call on an option symbol logs one "Creating Option Chain" line
    with its argument. *)
Fixpoint chain_requests (log : list HostCall) : list Symbol.t :=
  match log with
  | [] => []
  | Log (CreatingOptionChain _ symbol) :: rest => symbol :: chain_requests rest
  | _ :: rest => chain_requests rest
  end.

(** A generator that has not finished. *)
Definition is_yield (r : Resumed) : Prop :=
  match r with
  | Yield _ => True
  | _ => False
  end.

(** ** Symbols and the set of underlyings *)

Section SymbolEquality.

Lemma eqb_identity : forall a b : Symbol.t,
  Symbol.eqb a b = bool_decide (identity a = identity b).
Proof.
  fix IH 1.
  intros [ida va ua] [idb vb ub]; simpl.
  destruct ua as [u|], ub as [v|].
  - rewrite (IH u v). clear IH.
    repeat case_bool_decide; simpl in *; congruence.
  - clear IH.
    destruct u; repeat case_bool_decide; simpl in *; congruence.
  - clear IH.
    destruct v; repeat case_bool_decide; simpl in *; congruence.
  - clear IH.
    repeat case_bool_decide; simpl in *; congruence.
Qed.

Lemma opt_eqb_identity (a b : option Symbol.t) :
  Symbol.opt_eqb a b = bool_decide (opt_identity a = opt_identity b).
Proof.
  destruct a as [u|], b as [v|]; simpl; try rewrite eqb_identity;
    repeat case_bool_decide; try reflexivity; congruence.
Qed.

Lemma opt_eqb_refl (a : option Symbol.t) : Symbol.opt_eqb a a = true.
Proof. rewrite opt_eqb_identity. by apply bool_decide_eq_true. Qed.

Lemma opt_eqb_sym (a b : option Symbol.t) :
  Symbol.opt_eqb a b = Symbol.opt_eqb b a.
Proof. rewrite !opt_eqb_identity. repeat case_bool_decide; congruence. Qed.

Lemma opt_eqb_trans (a b c : option Symbol.t) :
  Symbol.opt_eqb a b = true -> Symbol.opt_eqb b c = true ->
  Symbol.opt_eqb a c = true.
Proof.
  rewrite !opt_eqb_identity, !bool_decide_eq_true. congruence.
Qed.

Lemma set_contains_cons x y s :
  set_contains x (y :: s) = Symbol.opt_eqb x y || set_contains x s.
Proof. reflexivity. Qed.

Lemma set_add_fresh x s :
  set_contains x s = false -> set_add x s = x :: s.
Proof. unfold set_add. by intros ->. Qed.

End SymbolEquality.

(** ** The methods, one by one *)

Ltac exec :=
  cbv beta iota zeta delta
    [bind ret raise self_get algorithm_get data_get algorithm_Log
     resolve_default underlying_Value set_nextRefreshTimeUtc
     SetFilter_method set_IsTradable new_OptionChainUniverse
     SecurityManager_CreateSecurity CreateOptionChainSecurity
     record_call with_heap negb
     self algorithm heap calls data].

Lemma alter_last {A} (f : A -> A) (l : list A) (x : A) :
  alter f (length l) (l ++ [x]) = l ++ [f x].
Proof.
  replace (length l) with (length l + 0)%nat by lia.
  by rewrite alter_app_r.
Qed.

Lemma lookup_last {A} (l : list A) (x : A) :
  (l ++ [x]) !! length l = Some x.
Proof.
  rewrite lookup_app_r by lia.
  by rewrite Nat.sub_diag.
Qed.

Section CreateOptionChain.

Variable symbol : Symbol.t.

Lemma CreateOptionChain_not_option w :
  ~ is_option symbol ->
  CreateOptionChain symbol w = (Raise InvalidSymbolKind, w).
Proof.
  intros Hno. unfold CreateOptionChain, is_option in *.
  by rewrite bool_decide_eq_false_2.
Qed.

Lemma CreateOptionChainSecurity_eq (c : Symbol.t)
    (settings : UniverseSettings.t) (initializer : ISecurityInitializer) w :
  CreateOptionChainSecurity c settings initializer w =
    (Ok (length (heap w)),
     {| self := self w; algorithm := algorithm w;
        heap := heap w ++ [Security.Build c true None
                             (Some (chain_args c settings initializer w))];
        calls := (calls w ++
                  [Log (CreatingOptionChainSecurity
                          (QCAlgorithm.UtcTime (algorithm w)) c)])
                 ++ [CreateSecurity (length (heap w))
                       (chain_args c settings initializer w)];
        data := data w |}).
Proof. reflexivity. Qed.

(** [CreateOptionChain] on an option symbol, case by case: the rewriting
    step raises; or the registry has no entry for the canonical symbol
    and the chain is built; or it has one, and the call stops at
    [SetFilter]. *)
Lemma CreateOptionChain_eq w :
  is_option symbol ->
  CreateOptionChain symbol w =
    let w1 := record_call
                (Log (CreatingOptionChain (QCAlgorithm.UtcTime (algorithm w)) symbol))
                w in
    match canonical symbol with
    | Raise e => (Raise e, w1)
    | Ok c =>
        match registered c w with
        | [] => (Ok (built_universe w), built symbol c w)
        | _ :: _ =>
            (Raise (AttributeError
               "'KeyValuePair[Symbol,Security]' object has no attribute 'SetFilter'"),
             record_call
               (Log (ResolvedExistingOptionChainSecurity
                       (QCAlgorithm.UtcTime (algorithm w)) c)) w1)
        end
    end.
Proof.
  unfold CreateOptionChain, is_option, canonical, registered, built,
    built_universe, effective_settings, effective_initializer.
  intros Hty. rewrite bool_decide_eq_true_2 by assumption.
  destruct w as [m a h cs d]. exec.
  destruct (Symbol.IsCanonical symbol); exec.
  - destruct (universeSettings m), (securityInitializer m); exec;
      match goal with
      | |- context [filter ?P ?l] => destruct (filter P l)
      end; exec; rewrite ?alter_last; unfold chain_args; simpl;
      rewrite <- ?app_assoc; reflexivity.
  - destruct (Symbol.Underlying symbol); exec; [|reflexivity].
    unfold rewritten.
    destruct (universeSettings m), (securityInitializer m); exec;
      match goal with
      | |- context [filter ?P ?l] => destruct (filter P l)
      end; exec; rewrite ?alter_last; unfold chain_args; simpl;
      rewrite <- ?app_assoc; reflexivity.
Qed.

(** A call leaves the model object, the host algorithm and the reference
    data as they were. *)
Lemma CreateOptionChain_frame w :
  self (snd (CreateOptionChain symbol w)) = self w /\
  algorithm (snd (CreateOptionChain symbol w)) = algorithm w /\
  data (snd (CreateOptionChain symbol w)) = data w.
Proof.
  destruct (decide (is_option symbol)) as [Hty|Hty].
  - rewrite CreateOptionChain_eq by assumption. simpl.
    destruct (canonical symbol) as [c|e]; [|by auto].
    destruct (registered c w); by auto.
  - rewrite CreateOptionChain_not_option by assumption. by auto.
Qed.

(** A call that returns has built the chain of the canonical symbol,
    for which the registry had no entry. *)
Lemma CreateOptionChain_returns w universe w' :
  CreateOptionChain symbol w = (Ok universe, w') ->
  is_option symbol /\
  exists c,
    canonical symbol = Ok c /\ registered c w = [] /\
    universe = built_universe w /\ w' = built symbol c w.
Proof.
  intros Hrun.
  destruct (decide (is_option symbol)) as [Hty|Hty].
  - split; [assumption|].
    rewrite CreateOptionChain_eq in Hrun by assumption. simpl in Hrun.
    destruct (canonical symbol) as [c|e]; [|discriminate].
    destruct (registered c w) eqn:Hreg; [|discriminate].
    exists c. by simplify_eq.
  - rewrite CreateOptionChain_not_option in Hrun by assumption. discriminate.
Qed.

(** On an option symbol, the only exception a call raises is an
    [AttributeError]. *)
Lemma CreateOptionChain_raises w e w' :
  is_option symbol ->
  CreateOptionChain symbol w = (Raise e, w') ->
  exists message, e = AttributeError message.
Proof.
  intros Hty Hrun. rewrite CreateOptionChain_eq in Hrun by assumption.
  simpl in Hrun. unfold canonical in *.
  destruct (Symbol.IsCanonical symbol).
  - destruct (registered symbol w); simplify_eq. by eexists.
  - destruct (Symbol.Underlying symbol) as [u|].
    + destruct (registered (rewritten symbol u) w); simplify_eq. by eexists.
    + simplify_eq. by eexists.
Qed.

End CreateOptionChain.

(** ** First-seen underlyings *)

Section FirstSeen.




Lemma first_seen_cons_old x rest seen :
  set_contains (Symbol.Underlying x) seen = true ->
  first_seen (x :: rest) seen = first_seen rest seen.
Proof. simpl. by intros ->. Qed.

Lemma first_seen_cons_new x rest seen :
  set_contains (Symbol.Underlying x) seen = false ->
  first_seen (x :: rest) seen =
    x :: first_seen rest (Symbol.Underlying x :: seen).
Proof. simpl. intros Hx. by rewrite Hx, set_add_fresh. Qed.





(** The choice made in a list extends the choice made in a prefix. *)
Lemma first_seen_app before after : forall seen,
  exists more, first_seen (before ++ after) seen = first_seen before seen ++ more.
Proof.
  induction before as [|x rest IH]; intros seen.
  - by eexists.
  - rewrite <- app_comm_cons.
    destruct (set_contains (Symbol.Underlying x) seen) eqn:Hx.
    + rewrite !first_seen_cons_old by assumption. apply IH.
    + rewrite !first_seen_cons_new by assumption.
      destruct (IH (Symbol.Underlying x :: seen)) as [more ->].
      by exists more.
Qed.

End FirstSeen.

(** ** The generator and its loop *)

Section Loop.

Lemma CreateUniverses_start_eq w :
  CreateUniverses_start w =
    match PyTime.add (QCAlgorithm.UtcTime (algorithm w)) (refreshInterval (self w)) with
    | Some sum =>
        (Ok (optionChainSymbolSelector (self w) (QCAlgorithm.UtcTime (algorithm w))),
         started sum w)
    | None => (Raise (OverflowError "date value out of range"), w)
    end.
Proof.
  unfold CreateUniverses_start, started. destruct w as [m a h cs d]. exec.
  destruct (PyTime.add (QCAlgorithm.UtcTime a) (refreshInterval m)); reflexivity.
Qed.

Lemma iterate_next fuel g g' w w' :
  next g w = next g' w' -> iterate fuel g w = iterate fuel g' w'.
Proof. destruct fuel; simpl; [reflexivity|]. by intros ->. Qed.

(** Iterating over a suspended generator runs its loop to the end; the
    number of symbols left bounds the number of requests. *)
Lemma iterate_run_loop symbols : forall fuel seen w,
  (length symbols < fuel)%nat ->
  iterate fuel (Suspended symbols seen) w = Some (run_loop symbols seen w).
Proof.
  induction symbols as [|x rest IH]; intros fuel seen w Hfuel;
    (destruct fuel as [|fuel]; [simpl in Hfuel; lia|]).
  - reflexivity.
  - simpl in Hfuel. simpl.
    destruct (negb (bool_decide (Symbol.SecurityType x = SecurityType.Option)));
      [reflexivity|].
    destruct (negb (set_contains (Symbol.Underlying x) seen)).
    + destruct (CreateOptionChain x w) as [[universe|e] w1]; [|reflexivity].
      rewrite IH by lia.
      by destruct (run_loop rest _ w1) as [[universes outcome] w2].
    + rewrite <- (IH (S fuel) seen w) by lia. reflexivity.
Qed.

(** A refresh always ends, and this is what it gives. *)
Lemma refresh_eq w :
  refresh w =
    Some (match CreateUniverses_start w with
          | (Ok symbols, w1) => run_loop symbols [] w1
          | (Raise e, w1) => ([], Failed e, w1)
          end).
Proof.
  unfold refresh, CreateUniverses, ret.
  pose proof (CreateUniverses_start_eq w) as Hstart.
  destruct (PyTime.add _ _) as [sum|].
  - rewrite Hstart.
    rewrite (iterate_next _ Created
               (Suspended (optionChainSymbolSelector (self w)
                             (QCAlgorithm.UtcTime (algorithm w))) [])
               w (started sum w)).
    + apply iterate_run_loop. simpl. lia.
    + simpl. by rewrite Hstart.
  - simpl. by rewrite Hstart.
Qed.

Lemma build_chains_frame symbols : forall w,
  self (snd (build_chains symbols w)) = self w /\
  algorithm (snd (build_chains symbols w)) = algorithm w /\
  data (snd (build_chains symbols w)) = data w.
Proof.
  induction symbols as [|x rest IH]; intros w; simpl; [by auto|].
  pose proof (CreateOptionChain_frame x w) as (Hs & Ha & Hd).
  destruct (CreateOptionChain x w) as [[universe|e] w1]; simpl in *; [|by auto].
  specialize (IH w1).
  destruct (build_chains rest w1) as [[universes e] w2]; simpl in *.
  destruct IH as (-> & -> & ->). by auto.
Qed.

Lemma run_loop_frame symbols : forall seen w,
  self (snd (run_loop symbols seen w)) = self w /\
  algorithm (snd (run_loop symbols seen w)) = algorithm w /\
  data (snd (run_loop symbols seen w)) = data w.
Proof.
  induction symbols as [|x rest IH]; intros seen w; simpl; [by auto|].
  destruct (negb (bool_decide _)); [by auto|].
  destruct (negb (set_contains _ seen)); [|apply IH].
  pose proof (CreateOptionChain_frame x w) as (Hs & Ha & Hd).
  destruct (CreateOptionChain x w) as [[universe|e] w1]; simpl in *; [|by auto].
  specialize (IH (set_add (Symbol.Underlying x) seen) w1).
  destruct (run_loop rest _ w1) as [[universes outcome] w2]; simpl in *.
  destruct IH as (-> & -> & ->). by auto.
Qed.

Lemma CreateUniverses_loop_frame symbols : forall seen w,
  self (snd (CreateUniverses_loop symbols seen w)) = self w /\
  algorithm (snd (CreateUniverses_loop symbols seen w)) = algorithm w /\
  data (snd (CreateUniverses_loop symbols seen w)) = data w.
Proof.
  induction symbols as [|x rest IH]; intros seen w; simpl; [by auto|].
  destruct (negb (bool_decide _)); [by auto|].
  destruct (negb (set_contains _ seen)); [|apply IH].
  pose proof (CreateOptionChain_frame x w) as Hframe.
  by destruct (CreateOptionChain x w) as [[universe|e] w1].
Qed.

(** On option symbols only, the loop builds the chains of the first-seen
    symbols, one after the other. *)
Lemma run_loop_options symbols : forall seen w,
  Forall is_option symbols ->
  run_loop symbols seen w =
    let '(universes, e, w') := build_chains (first_seen symbols seen) w in
    (universes, match e with Some e => Failed e | None => Exhausted end, w').
Proof.
  induction symbols as [|x rest IH]; intros seen w Hall; [reflexivity|].
  apply Forall_cons in Hall as [Hx Hrest].
  simpl. rewrite (bool_decide_eq_true_2 _ Hx). simpl.
  destruct (set_contains (Symbol.Underlying x) seen) eqn:Hseen; simpl.
  - by apply IH.
  - destruct (CreateOptionChain x w) as [[universe|e] w1]; [|reflexivity].
    rewrite IH by assumption.
    by destruct (build_chains _ w1) as [[universes e] w2].
Qed.

(** With a symbol that is no option in the list, the loop builds the
    chains of the first-seen symbols before it and then raises. *)
Lemma run_loop_invalid before x after : forall seen w,
  Forall is_option before -> ~ is_option x ->
  run_loop (before ++ x :: after) seen w =
    let '(universes, e, w') := build_chains (first_seen before seen) w in
    (universes,
     Failed match e with Some e => e | None => InvalidSelectorOutput end,
     w').
Proof.
  induction before as [|y rest IH]; intros seen w Hall Hx.
  - simpl. by rewrite (bool_decide_eq_false_2 _ Hx).
  - apply Forall_cons in Hall as [Hy Hrest].
    simpl. rewrite (bool_decide_eq_true_2 _ Hy). simpl.
    destruct (set_contains (Symbol.Underlying y) seen) eqn:Hseen; simpl.
    + by apply IH.
    + destruct (CreateOptionChain y w) as [[universe|e] w1]; [|reflexivity].
      rewrite IH by assumption.
      by destruct (build_chains _ w1) as [[universes e] w2].
Qed.

(** A list of symbols holds options only, or has a first symbol that is
    none. *)
Lemma options_or_first_invalid (symbols : list Symbol.t) :
  Forall is_option symbols \/
  exists before x after,
    symbols = before ++ x :: after /\ Forall is_option before /\ ~ is_option x.
Proof.
  induction symbols as [|y rest IH]; [by left|].
  destruct (decide (is_option y)) as [Hy|Hy].
  - destruct IH as [Hall|(before & x & after & -> & Hall & Hx)].
    + left. by constructor.
    + right. exists (y :: before), x, after. repeat split; [|assumption].
      by constructor.
  - right. exists [], y, rest. by repeat split.
Qed.

(** The universes built before the first failure are those of a prefix of
    the list. *)
Lemma build_chains_take symbols : forall w universes e w',
  build_chains symbols w = (universes, e, w') ->
  fst (build_chains (take (length universes) symbols) w) = (universes, None) /\
  (e = None -> take (length universes) symbols = symbols /\
               build_chains symbols w = (universes, None, w')).
Proof.
  induction symbols as [|x rest IH]; intros w universes e w' Hrun; simpl in Hrun.
  - simplify_eq. by split.
  - destruct (CreateOptionChain x w) as [[universe|e1] w1] eqn:Hx.
    + destruct (build_chains rest w1) as [[universes1 e2] w2] eqn:Hrest.
      simplify_eq. simpl. rewrite Hx.
      destruct (IH _ _ _ _ Hrest) as [Htake Hnone].
      destruct (build_chains (take (length universes1) rest) w1)
        as [[universes3 e3] w3].
      simpl in Htake. simplify_eq. split; [reflexivity|].
      intros ->. destruct (Hnone eq_refl) as [-> _]. by rewrite Hrest.
    + simplify_eq. split; [reflexivity|discriminate].
Qed.

End Loop.

(** ** The refresh time *)

Lemma date_drops_time_of_day (days time : Z) :
  0 <= time < PyTime.us_per_day ->
  PyTime.date (days * PyTime.us_per_day + time) = PyTime.Date days.
Proof.
  intros Htime. unfold PyTime.date. f_equal.
  unfold PyTime.us_per_day in *.
  rewrite Z.add_comm, Z.div_add by lia.
  rewrite Z.div_small by lia. lia.
Qed.

Lemma started_frame sum w :
  same_configuration (self w) (self (started sum w)) /\
  algorithm (started sum w) = algorithm w /\
  data (started sum w) = data w /\
  heap (started sum w) = heap w.
Proof. by repeat split. Qed.

Lemma GetNextRefreshTimeUtc_eq w :
  GetNextRefreshTimeUtc w = (Ok (nextRefreshTimeUtc (self w)), w).
Proof. reflexivity. Qed.

(** The world after the first request to a fresh generator. *)
Lemma next_Created_self w sum :
  PyTime.add (QCAlgorithm.UtcTime (algorithm w)) (refreshInterval (self w)) = Some sum ->
  self (snd (next Created w)) = self (started sum w).
Proof.
  intros Hsum. simpl. rewrite CreateUniverses_start_eq, Hsum.
  apply CreateUniverses_loop_frame.
Qed.

(** C1, as the claim states it, fails: calling [CreateUniverses] returns a
    generator and runs none of the body, so right after the call
    [GetNextRefreshTimeUtc] still returns [datetime.min], not the date of
    the time plus the interval. *)
Lemma call_alone_leaves_nextRefreshTimeUtc :
  CreateUniverses Sample.one_contract = (Ok Created, Sample.one_contract) /\
  PyTime.add (QCAlgorithm.UtcTime (algorithm Sample.one_contract))
             (refreshInterval (self Sample.one_contract))
    = Some (Sample.morning + Sample.one_day) /\
  fst (GetNextRefreshTimeUtc (snd (CreateUniverses Sample.one_contract)))
    = Ok PyTime.datetime_min /\
  fst (GetNextRefreshTimeUtc (snd (CreateUniverses Sample.one_contract)))
    <> Ok (PyTime.date (Sample.morning + Sample.one_day)).
Proof. repeat split; try reflexivity. discriminate. Qed.

(** C1, amended: the call of [CreateUniverses] itself changes nothing; once
    the generator it returns is asked for its first element, at time [t]
    with [t + refreshInterval] a representable datetime,
    [GetNextRefreshTimeUtc] returns the date of [t + refreshInterval], the
    time of day dropped, whatever the time of day of [t]; the same holds
    after a whole refresh. *)
Theorem first_request_sets_nextRefreshTimeUtc (w : World) (sum : Z) :
  PyTime.add (QCAlgorithm.UtcTime (algorithm w)) (refreshInterval (self w)) = Some sum ->
  CreateUniverses w = (Ok Created, w) /\
  fst (GetNextRefreshTimeUtc (snd (next Created w)))
    = Ok (PyTime.Date (sum / PyTime.us_per_day)) /\
  exists universes outcome w',
    refresh w = Some (universes, outcome, w') /\
    fst (GetNextRefreshTimeUtc w') = Ok (PyTime.Date (sum / PyTime.us_per_day)).
Proof.
  intros Hsum. split; [reflexivity|]. split.
  - rewrite GetNextRefreshTimeUtc_eq. cbn [fst].
    by rewrite (next_Created_self w sum Hsum).
  - rewrite refresh_eq, CreateUniverses_start_eq, Hsum.
    pose proof (run_loop_frame
                  (optionChainSymbolSelector (self w) (QCAlgorithm.UtcTime (algorithm w)))
                  [] (started sum w)) as (Hself & _ & _).
    destruct (run_loop _ [] (started sum w)) as [[universes outcome] w'].
    exists universes, outcome, w'. split; [reflexivity|].
    rewrite GetNextRefreshTimeUtc_eq. cbn [fst snd] in *. by rewrite Hself.
Qed.

Lemma first_request_sets_nextRefreshTimeUtc_witness :
  fst (GetNextRefreshTimeUtc (snd (next Created Sample.two_underlyings)))
    = Ok (PyTime.Date 735389).
Proof.
  apply (first_request_sets_nextRefreshTimeUtc Sample.two_underlyings
           (Sample.late + Sample.one_day)).
  reflexivity.
Defined.

(** ** One chain per underlying *)



Lemma chain_requests_app (log more : list HostCall) :
  chain_requests (log ++ more) = chain_requests log ++ chain_requests more.
Proof.
  induction log as [|entry log IH]; [reflexivity|].
  destruct entry as [[]| | |]; simpl; by rewrite IH.
Qed.

(** A call on an option symbol shows in the log, whether it returns or
    raises. *)
Lemma CreateOptionChain_requests symbol w :
  is_option symbol ->
  chain_requests (calls (snd (CreateOptionChain symbol w)))
    = chain_requests (calls w) ++ [symbol].
Proof.
  intros Hty. rewrite CreateOptionChain_eq by assumption. simpl.
  destruct (canonical symbol) as [c|e]; simpl.
  - destruct (registered c w); simpl; rewrite !chain_requests_app; simpl;
      by rewrite ?app_nil_r.
  - rewrite chain_requests_app. reflexivity.
Qed.

Lemma CreateOptionChain_raises_heap symbol w e w' :
  CreateOptionChain symbol w = (Raise e, w') -> heap w' = heap w.
Proof.
  intros Hrun.
  destruct (decide (is_option symbol)) as [Hty|Hty].
  - rewrite CreateOptionChain_eq in Hrun by assumption. simpl in Hrun.
    destruct (canonical symbol) as [c|e1]; [|by simplify_eq].
    destruct (registered c w); by simplify_eq.
  - rewrite CreateOptionChain_not_option in Hrun by assumption. by simplify_eq.
Qed.

(** Chains built one after the other: the log names the symbols in order,
    and the heap gets one security per symbol, in order, each with the
    canonical symbol of its symbol. *)
Lemma build_chains_trace chosen : forall w universes w_mid,
  build_chains chosen w = (universes, None, w_mid) ->
  length chosen = length universes /\
  chain_requests (calls w_mid) = chain_requests (calls w) ++ chosen /\
  exists new,
    heap w_mid = heap w ++ new /\
    forall (i : nat) c universe,
      chosen !! i = Some c -> universes !! i = Some universe ->
      OptionChainUniverse.Option universe = (length (heap w) + i)%nat /\
      exists canonical_symbol,
        canonical c = Ok canonical_symbol /\
        (Security.Symbol <$> new !! i) = Some canonical_symbol.
Proof.
  induction chosen as [|x rest IH]; intros w universes w_mid Hbuild;
    simpl in Hbuild.
  - simplify_eq. split; [reflexivity|]. split; [by rewrite app_nil_r|].
    exists []. split; [by rewrite app_nil_r|].
    intros i c u Hi. by rewrite lookup_nil in Hi.
  - destruct (CreateOptionChain x w) as [[universe|e] w1] eqn:Hx; [|discriminate].
    destruct (build_chains rest w1) as [[universes1 e1] w2] eqn:Hrest.
    simplify_eq.
    destruct (IH _ _ _ Hrest) as (Hlen & Hlog & new & Hheap & Hall).
    pose proof (CreateOptionChain_returns x w universe w1 Hx)
      as (Hty & cs & Hcs & _ & -> & ->).
    pose proof (CreateOptionChain_requests x w Hty) as Hreq.
    rewrite Hx in Hreq. simpl in Hreq.
    split; [simpl; by rewrite Hlen|]. split.
    + rewrite Hlog. simpl. rewrite Hreq, <- app_assoc. reflexivity.
    + eexists (_ :: new). split.
      * rewrite Hheap. simpl. rewrite <- app_assoc. reflexivity.
      * intros [|i] c u Hc Hu; simpl in Hc, Hu.
        -- simplify_eq. split; [simpl; lia|]. by exists cs.
        -- destruct (Hall i c u Hc Hu) as (Href & canonical_symbol & Hcan & Hnew).
           split; [|by exists canonical_symbol].
           rewrite Href. simpl. rewrite length_app. simpl. lia.
Qed.

(** The loop, told by the symbols it chose: it built the chains of
    [chosen], a prefix of the first-seen symbols, and then ended, met a
    symbol that is no option, or failed to build the chain of the next
    first-seen symbol. *)
Lemma run_loop_chosen symbols : forall seen w,
  exists chosen failed more w_mid,
    first_seen symbols seen = chosen ++ failed ++ more /\
    build_chains chosen w
      = (fst (fst (run_loop symbols seen w)), None, w_mid) /\
    heap (snd (run_loop symbols seen w)) = heap w_mid /\
    chain_requests (calls (snd (run_loop symbols seen w)))
      = chain_requests (calls w_mid) ++ failed /\
    (length failed <= 1)%nat /\
    (snd (fst (run_loop symbols seen w)) = Exhausted ->
     failed = [] /\ more = [] /\ snd (run_loop symbols seen w) = w_mid).
Proof.
  induction symbols as [|x rest IH]; intros seen w.
  - exists [], [], [], w. simpl. rewrite app_nil_r.
    split; [reflexivity|]. split; [reflexivity|]. split; [reflexivity|].
    split; [reflexivity|]. split; [lia|]. by intros _.
  - simpl. case_bool_decide as Hx; simpl.
    + destruct (set_contains (Symbol.Underlying x) seen) eqn:Hseen; simpl;
        [apply IH|].
      rewrite set_add_fresh by assumption.
      destruct (CreateOptionChain x w) as [[universe|e] w1] eqn:Hrun.
      * destruct (IH (Symbol.Underlying x :: seen) w1)
          as (chosen & failed & more & w_mid & Hfirst & Hbuild & Hheap & Hlog
              & Hlen & Hend).
        destruct (run_loop rest _ w1) as [[universes outcome] w2].
        simpl in *. exists (x :: chosen), failed, more, w_mid.
        split; [by rewrite Hfirst|]. split; [|by repeat (split; [assumption|])].
        simpl. by rewrite Hrun, Hbuild.
      * exists [], [x], (first_seen rest (Symbol.Underlying x :: seen)), w.
        pose proof (CreateOptionChain_requests x w Hx) as Hreq.
        rewrite Hrun in Hreq. simpl in *.
        split; [reflexivity|]. split; [reflexivity|].
        split; [by eapply CreateOptionChain_raises_heap|].
        split; [assumption|]. split; [lia|discriminate].
    + exists [], [], (first_seen (x :: rest) seen), w. simpl.
      rewrite app_nil_r. split; [reflexivity|]. split; [reflexivity|].
      split; [reflexivity|]. split; [reflexivity|]. split; [lia|discriminate].
Qed.

(** A refresh, told by the symbols it chose. *)
Lemma refresh_chosen (w : World) :
  exists chosen failed more universes outcome w' w_mid,
    refresh w = Some (universes, outcome, w') /\
    first_seen (optionChainSymbolSelector (self w) (QCAlgorithm.UtcTime (algorithm w))) []
      = chosen ++ failed ++ more /\
    build_chains chosen (snd (CreateUniverses_start w)) = (universes, None, w_mid) /\
    heap (snd (CreateUniverses_start w)) = heap w /\
    chain_requests (calls (snd (CreateUniverses_start w))) = chain_requests (calls w) /\
    heap w' = heap w_mid /\
    chain_requests (calls w') = chain_requests (calls w_mid) ++ failed /\
    (length failed <= 1)%nat /\
    (outcome = Exhausted -> failed = [] /\ more = [] /\ w' = w_mid).
Proof.
  rewrite refresh_eq, CreateUniverses_start_eq.
  set (symbols := optionChainSymbolSelector (self w) (QCAlgorithm.UtcTime (algorithm w))).
  destruct (PyTime.add _ _) as [sum|]; cbn [snd].
  - destruct (run_loop_chosen symbols [] (started sum w))
      as (chosen & failed & more & w_mid & Hfirst & Hbuild & Hheap & Hlog
          & Hlen & Hend).
    destruct (run_loop symbols [] (started sum w)) as [[universes outcome] w'].
    simpl in *. exists chosen, failed, more, universes, outcome, w', w_mid.
    split; [reflexivity|]. split; [assumption|]. split; [assumption|].
    split; [reflexivity|]. split; [|by repeat (split; [assumption|])].
    unfold started. simpl. rewrite chain_requests_app. simpl.
    by rewrite app_nil_r.
  - exists [], [], (first_seen symbols []), [],
      (Failed (OverflowError "date value out of range")), w, w.
    simpl. rewrite app_nil_r. split; [reflexivity|]. split; [reflexivity|].
    split; [reflexivity|]. split; [reflexivity|]. split; [reflexivity|].
    split; [reflexivity|]. split; [reflexivity|]. split; [lia|discriminate].
Qed.




(** ** Symbols that are no options *)

(** C3, as the claim states it, fails: the selector returns the MSFT
    equity, which is no option, while the host clock stands at the last
    representable microsecond.  The sum of time and interval overflows at
    the head of the body, so the refresh ends with [OverflowError] before
    the loop meets the symbol, and not with the [ValueError] of the
    selector check. *)
Lemma overflow_comes_before_selector_check :
  optionChainSymbolSelector (self Sample.equity_at_last_moment)
    (QCAlgorithm.UtcTime (algorithm Sample.equity_at_last_moment))
    = [Sample.MSFT] /\
  ~ is_option Sample.MSFT /\
  refresh Sample.equity_at_last_moment
    = Some ([], Failed (OverflowError "date value out of range"),
            Sample.equity_at_last_moment) /\
  refresh Sample.equity_at_last_moment
    <> Some ([], Failed (ValueError "optionChainSymbolSelector must return option symbols."),
             Sample.equity_at_last_moment).
Proof.
  split; [reflexivity|]. split; [discriminate|].
  split; [vm_compute; reflexivity|]. vm_compute. discriminate.
Qed.

(** C3, amended: when the selector's output has a symbol that is no option
    after option symbols only, the time plus the interval is a
    representable datetime and the chains of the first-seen symbols before
    it get built, the refresh yields exactly these chains and then raises
    the [ValueError] of the selector check; nothing else is yielded or
    done. *)
Theorem refresh_rejects_non_option (w : World)
    (before : list Symbol.t) (x : Symbol.t) (after : list Symbol.t)
    (sum : Z) (universes : list OptionChainUniverse.t) (w' : World) :
  optionChainSymbolSelector (self w) (QCAlgorithm.UtcTime (algorithm w))
    = before ++ x :: after ->
  Forall is_option before ->
  ~ is_option x ->
  PyTime.add (QCAlgorithm.UtcTime (algorithm w)) (refreshInterval (self w)) = Some sum ->
  build_chains (first_seen before []) (started sum w) = (universes, None, w') ->
  refresh w =
    Some (universes,
          Failed (ValueError "optionChainSymbolSelector must return option symbols."),
          w').
Proof.
  intros Hsplit Hall Hx Hsum Hbuild.
  rewrite refresh_eq, CreateUniverses_start_eq, Hsum, Hsplit.
  rewrite run_loop_invalid by assumption.
  by rewrite Hbuild.
Qed.

(** The scenario of the specification: two contracts of AAPL, then the MSFT
    equity. *)
Lemma refresh_rejects_non_option_witness :
  exists universe w',
    refresh Sample.two_contracts_then_equity =
      Some ([universe],
            Failed (ValueError "optionChainSymbolSelector must return option symbols."),
            w') /\
    (Security.Symbol <$> heap w' !! OptionChainUniverse.Option universe)
      = Some (Sample.chain "AAPL").
Proof.
  eexists _, _. split.
  - apply (refresh_rejects_non_option Sample.two_contracts_then_equity
             [Sample.AAPL_1; Sample.AAPL_2] Sample.MSFT []
             (Sample.morning + Sample.one_day)).
    + reflexivity.
    + repeat constructor.
    + discriminate.
    + reflexivity.
    + vm_compute. reflexivity.
  - reflexivity.
Defined.

(** ** The chain security *)

Lemma rewritten_canonical (symbol underlying : Symbol.t) :
  Symbol.IsCanonical (rewritten symbol underlying) = true /\
  Symbol.Value (rewritten symbol underlying) = "?" +:+ Symbol.Value underlying /\
  SecurityIdentifier.Market (Symbol.ID (rewritten symbol underlying))
    = SecurityIdentifier.Market (Symbol.ID symbol) /\
  Symbol.SecurityType (rewritten symbol underlying) = SecurityType.Option.
Proof. by repeat split. Qed.

(** The security of the universe a call returns. *)
Lemma CreateOptionChain_security symbol w universe w' :
  CreateOptionChain symbol w = (Ok universe, w') ->
  exists c args,
    canonical symbol = Ok c /\
    heap w' !! OptionChainUniverse.Option universe
      = Some (Security.Build c false (Some self_Filter) (Some args)) /\
    calls w' = (calls w ++
                [Log (CreatingOptionChain (QCAlgorithm.UtcTime (algorithm w)) symbol);
                 Log (CreatingOptionChainSecurity (QCAlgorithm.UtcTime (algorithm w)) c);
                 CreateSecurity (OptionChainUniverse.Option universe) args]) ++
               [SetFilter (OptionChainUniverse.Option universe) self_Filter;
                SetIsTradable (OptionChainUniverse.Option universe) false].
Proof.
  intros (_ & c & Hc & _ & -> & ->)%CreateOptionChain_returns.
  eexists c, _. split; [assumption|]. split.
  - apply lookup_last.
  - simpl. by rewrite <- app_assoc.
Qed.



(** C6: when [CreateOptionChain] returns, the security of the universe is
    not tradable and its contract filter is [self.Filter]; the last two
    things done to the host are [SetFilter] on that security and then the
    write of [IsTradable], in this order. *)
Theorem CreateOptionChain_configures_security (symbol : Symbol.t) (w : World)
    (universe : OptionChainUniverse.t) (w' : World) :
  CreateOptionChain symbol w = (Ok universe, w') ->
  exists security earlier,
    heap w' !! OptionChainUniverse.Option universe = Some security /\
    Security.IsTradable security = false /\
    Security.ContractFilter security = Some self_Filter /\
    (forall (A : Type) (x : A) (w0 : World), call self_Filter x w0 = (Ok x, w0)) /\
    calls w' = earlier ++
      [SetFilter (OptionChainUniverse.Option universe) self_Filter;
       SetIsTradable (OptionChainUniverse.Option universe) false].
Proof.
  intros (c & args & _ & Hheap & Hcalls)%CreateOptionChain_security.
  eexists _, _. split; [exact Hheap|]. by repeat split.
Qed.

Lemma CreateOptionChain_configures_security_witness :
  exists security,
    heap (snd (CreateOptionChain Sample.AAPL_1 Sample.one_contract))
      !! 0%nat = Some security /\
    Security.IsTradable security = false /\
    Security.ContractFilter security = Some self_Filter.
Proof.
  destruct (CreateOptionChain Sample.AAPL_1 Sample.one_contract)
    as [[universe|e] w'] eqn:Hrun; [|vm_compute in Hrun; discriminate].
  destruct (CreateOptionChain_configures_security _ _ _ _ Hrun)
    as (security & earlier & Hheap & Htradable & Hfilter & _).
  vm_compute in Hrun. simplify_eq.
  exists security. repeat split; assumption.
Defined.

(** C5, the failing input: the registry holds the chain security of AAPL.
    [CreateOptionChain] finds the entry, logs that it resolved the existing
    security, binds [optionChain] to the key-value pair instead of its
    value, and raises at [SetFilter]: no universe is returned. *)
Theorem existing_chain_security_not_reused :
  registered (Sample.chain "AAPL") Sample.chain_registered = [Sample.AAPL_entry] /\
  CreateOptionChain (Sample.chain "AAPL") Sample.chain_registered =
    (Raise (AttributeError
              "'KeyValuePair[Symbol,Security]' object has no attribute 'SetFilter'"),
     record_call
       (Log (ResolvedExistingOptionChainSecurity Sample.morning (Sample.chain "AAPL")))
       (record_call
          (Log (CreatingOptionChain Sample.morning (Sample.chain "AAPL")))
          Sample.chain_registered)).
Proof. split; vm_compute; reflexivity. Qed.

(** Without an entry for the canonical symbol in the registry, the call
    returns. *)
Lemma CreateOptionChain_builds symbol c w :
  is_option symbol -> canonical symbol = Ok c -> registered c w = [] ->
  CreateOptionChain symbol w = (Ok (built_universe w), built symbol c w).
Proof.
  intros Hty Hc Hreg. rewrite CreateOptionChain_eq by assumption.
  simpl. by rewrite Hc, Hreg.
Qed.

(** Whenever the registry has an entry for the canonical symbol, the call
    builds no new security and raises. *)
Lemma CreateOptionChain_registered symbol c entry entries w :
  is_option symbol -> canonical symbol = Ok c ->
  registered c w = entry :: entries ->
  exists message w',
    CreateOptionChain symbol w = (Raise (AttributeError message), w') /\
    heap w' = heap w.
Proof.
  intros Hty Hc Hreg. rewrite CreateOptionChain_eq by assumption.
  simpl. rewrite Hc, Hreg. by eexists _, _.
Qed.

(** A new security is built only when the registry has no entry. *)
Lemma CreateOptionChain_builds_only_unregistered symbol w r args :
  CreateSecurity r args ∈ calls (snd (CreateOptionChain symbol w)) ->
  CreateSecurity r args ∉ calls w ->
  exists c, canonical symbol = Ok c /\ registered c w = [].
Proof.
  intros Hin Hnot.
  destruct (decide (is_option symbol)) as [Hty|Hty].
  - rewrite CreateOptionChain_eq in Hin by assumption. simpl in Hin.
    destruct (canonical symbol) as [c|e].
    + destruct (registered c w) eqn:Hreg; [by exists c|].
      simpl in Hin. rewrite !elem_of_app, !elem_of_cons, elem_of_nil in Hin.
      intuition congruence.
    + simpl in Hin. rewrite !elem_of_app, !elem_of_cons, elem_of_nil in Hin.
      intuition congruence.
  - rewrite CreateOptionChain_not_option in Hin by assumption. done.
Qed.

(** ** Settings and initializer *)

Lemma effective_frame w w' :
  self w' = self w -> algorithm w' = algorithm w ->
  effective_settings w' = effective_settings w /\
  effective_initializer w' = effective_initializer w.
Proof.
  unfold effective_settings, effective_initializer. by intros -> ->.
Qed.

Lemma run_loop_defaults symbols : forall seen w,
  Forall (fun universe =>
            OptionChainUniverse.UniverseSettings universe = effective_settings w /\
            OptionChainUniverse.SecurityInitializer universe = effective_initializer w)
         (fst (fst (run_loop symbols seen w))).
Proof.
  induction symbols as [|x rest IH]; intros seen w; simpl; [constructor|].
  destruct (negb (bool_decide _)); [constructor|].
  destruct (negb (set_contains _ seen)); [|apply IH].
  destruct (CreateOptionChain x w) as [[universe|e] w1] eqn:Hx; [|constructor].
  pose proof (CreateOptionChain_frame x w) as (Hself & Halg & _).
  rewrite Hx in Hself, Halg. simpl in Hself, Halg.
  destruct (effective_frame w w1 Hself Halg) as [Hs Hi].
  apply CreateOptionChain_returns in Hx as (_ & c & _ & _ & -> & _).
  specialize (IH (set_add (Symbol.Underlying x) seen) w1).
  destruct (run_loop rest _ w1) as [[universes outcome] w2]. simpl in *.
  constructor; [by split|]. by rewrite <- Hs, <- Hi.
Qed.

(** C7: take a model built by [__init__] from an interval, a selector,
    settings and an initializer, each of the last two a value or [None],
    fresh or after any number of refreshes.  Every universe a refresh
    yields carries the settings value given to the constructor or, where
    [None] was given, the host's default settings as they are in the world
    of this refresh, and likewise the initializer; and after the refresh
    the model still holds what the constructor was given, no resolved
    default being stored in it.  So a default the host changes between two
    refreshes is the one the later refresh uses. *)
Theorem refresh_resolves_defaults_at_call_time
    (interval : Z) (selector : Z -> list Symbol.t)
    (settings : option UniverseSettings.t)
    (initializer : option ISecurityInitializer) (w : World) :
  same_configuration (__init__ interval selector settings initializer) (self w) ->
  exists universes outcome w',
    refresh w = Some (universes, outcome, w') /\
    Forall (fun universe =>
              OptionChainUniverse.UniverseSettings universe =
                match settings with
                | Some explicit => explicit
                | None => QCAlgorithm.UniverseSettings (algorithm w)
                end /\
              OptionChainUniverse.SecurityInitializer universe =
                match initializer with
                | Some explicit => explicit
                | None => QCAlgorithm.SecurityInitializer (algorithm w)
                end)
           universes /\
    same_configuration (__init__ interval selector settings initializer) (self w').
Proof.
  intros (Hinterval & Hselector & Hsettings & Hinitializer). simpl in *.
  rewrite refresh_eq, CreateUniverses_start_eq.
  destruct (PyTime.add _ _) as [sum|].
  - pose proof (run_loop_defaults
                  (optionChainSymbolSelector (self w) (QCAlgorithm.UtcTime (algorithm w)))
                  [] (started sum w)) as Hdefaults.
    pose proof (run_loop_frame
                  (optionChainSymbolSelector (self w) (QCAlgorithm.UtcTime (algorithm w)))
                  [] (started sum w)) as (Hself & _ & _).
    destruct (run_loop _ [] (started sum w)) as [[universes outcome] w'].
    exists universes, outcome, w'. simpl in *.
    split; [reflexivity|]. split.
    + unfold effective_settings, effective_initializer in Hdefaults.
      simpl in Hdefaults. by rewrite Hsettings, Hinitializer in Hdefaults.
    + rewrite Hself. by repeat split.
  - eexists [], _, w. split; [reflexivity|]. split; [constructor|].
    by repeat split.
Qed.

(** A model built with settings and an initializer of its own uses them,
    whatever the host's defaults; a model built with [None] for both uses
    the host's defaults of the moment, also after the host has replaced
    them between two refreshes. *)
Lemma refresh_resolves_defaults_at_call_time_witness :
  (exists explicit1 explicit2 w1,
     refresh Sample.configured = Some ([explicit1; explicit2], Exhausted, w1) /\
     OptionChainUniverse.UniverseSettings explicit1 = Sample.explicitSettings /\
     OptionChainUniverse.SecurityInitializer explicit1 = Sample.explicitInitializer /\
     OptionChainUniverse.UniverseSettings explicit2 = Sample.explicitSettings /\
     OptionChainUniverse.SecurityInitializer explicit2 = Sample.explicitInitializer) /\
  (exists first w1 second w2,
     refresh Sample.one_contract = Some ([first], Exhausted, w1) /\
     refresh (Sample.with_host_defaults Sample.otherSettings Sample.ownInitializer w1)
       = Some ([second], Exhausted, w2) /\
     OptionChainUniverse.UniverseSettings first = Sample.hostSettings /\
     OptionChainUniverse.SecurityInitializer first = Sample.hostInitializer /\
     OptionChainUniverse.UniverseSettings second = Sample.otherSettings /\
     OptionChainUniverse.SecurityInitializer second = Sample.ownInitializer).
Proof.
  split.
  - destruct (refresh_resolves_defaults_at_call_time
                Sample.one_day (fun _ => [Sample.AAPL_1; Sample.GOOG_1])
                (Some Sample.explicitSettings) (Some Sample.explicitInitializer)
                Sample.configured)
      as (universes & outcome & w1 & Hrun & Hall & _).
    { by repeat split. }
    vm_compute in Hrun. simplify_eq.
    apply Forall_cons in Hall as [[Hs1 Hi1] Hall].
    apply Forall_cons in Hall as [[Hs2 Hi2] _].
    eexists _, _, _. split; [vm_compute; reflexivity|].
    repeat split; assumption.
  - destruct (refresh_resolves_defaults_at_call_time
                Sample.one_day (fun _ => [Sample.AAPL_1]) None None
                Sample.one_contract)
      as (universes1 & outcome1 & w1 & Hrun1 & Hall1 & Hkept).
    { by repeat split. }
    destruct (refresh_resolves_defaults_at_call_time
                Sample.one_day (fun _ => [Sample.AAPL_1]) None None
                (Sample.with_host_defaults Sample.otherSettings Sample.ownInitializer w1))
      as (universes2 & outcome2 & w2 & Hrun2 & Hall2 & _).
    { exact Hkept. }
    vm_compute in Hrun1. simplify_eq.
    vm_compute in Hrun2. simplify_eq.
    apply Forall_cons in Hall1 as [[Hs1 Hi1] _].
    apply Forall_cons in Hall2 as [[Hs2 Hi2] _].
    eexists _, _, _, _.
    split; [vm_compute; reflexivity|]. split; [vm_compute; reflexivity|].
    repeat split; assumption.
Defined.

(** ** The check of [CreateOptionChain] *)

Lemma run_loop_failure symbols : forall seen w e,
  snd (fst (run_loop symbols seen w)) = Failed e ->
  e = InvalidSelectorOutput \/ exists message, e = AttributeError message.
Proof.
  induction symbols as [|x rest IH]; intros seen w e; simpl; [discriminate|].
  case_bool_decide as Hx; simpl.
  - destruct (negb (set_contains _ seen)); [|apply IH].
    destruct (CreateOptionChain x w) as [[universe|e1] w1] eqn:Hrun.
    + specialize (IH (set_add (Symbol.Underlying x) seen) w1 e).
      by destruct (run_loop rest _ w1) as [[universes outcome] w2].
    + simpl. intros [= <-]. right. by eapply CreateOptionChain_raises.
  - intros [= <-]. by left.
Qed.

(** C8: on a symbol that is no option, [CreateOptionChain] raises its
    [ValueError] and has done nothing else, the world being as it was; and
    no refresh ends with this error, whatever the selector returns, since
    the loop lets only option symbols through to [CreateOptionChain]. *)
Theorem CreateOptionChain_rejects_non_option :
  (forall (symbol : Symbol.t) (w : World),
     Symbol.SecurityType symbol <> SecurityType.Option ->
     CreateOptionChain symbol w =
       (Raise (ValueError "CreateOptionChain requires an option symbol."), w)) /\
  (forall w : World,
     exists universes outcome w',
       refresh w = Some (universes, outcome, w') /\
       outcome <> Failed (ValueError "CreateOptionChain requires an option symbol.")).
Proof.
  split.
  - intros symbol w Hty. by apply CreateOptionChain_not_option.
  - intros w. rewrite refresh_eq, CreateUniverses_start_eq.
    destruct (PyTime.add _ _) as [sum|].
    + pose proof (run_loop_failure
                    (optionChainSymbolSelector (self w) (QCAlgorithm.UtcTime (algorithm w)))
                    [] (started sum w)) as Hfail.
      destruct (run_loop _ [] (started sum w)) as [[universes outcome] w'].
      exists universes, outcome, w'. split; [reflexivity|].
      intros ->. destruct (Hfail _ eq_refl) as [Heq|[message Heq]]; discriminate.
    + eexists [], _, w. split; [reflexivity|discriminate].
Qed.

Lemma CreateOptionChain_rejects_non_option_witness :
  CreateOptionChain Sample.MSFT Sample.equity_first =
    (Raise (ValueError "CreateOptionChain requires an option symbol."),
     Sample.equity_first).
Proof.
  apply (proj1 CreateOptionChain_rejects_non_option). discriminate.
Defined.

(** ** The filter *)

(** C9: [Filter] returns the value it is given, of the same type, and
    leaves the world as it is. *)
Theorem Filter_is_identity (A : Type) (filter : A) (w : World) :
  Filter filter w = (Ok filter, w).
Proof. reflexivity. Qed.

(** ** What a refresh writes *)

Lemma same_configuration_refl m : same_configuration m m.
Proof. by repeat split. Qed.

Lemma same_configuration_eq m m' m'' :
  m'' = m' -> same_configuration m m' -> same_configuration m m''.
Proof. by intros ->. Qed.

(** C10: whatever a generator of [CreateUniverses] is asked, and so for a
    whole refresh, the interval, the selector, the settings and the
    initializer of the model are afterwards what they were;
    [CreateOptionChain] and [CreateOptionChainSecurity] leave the whole
    model object as it was; [GetNextRefreshTimeUtc] and the call of
    [CreateUniverses] leave the whole world as it was. *)
Theorem refresh_writes_only_nextRefreshTimeUtc :
  (forall (g : Generator) (w : World),
     same_configuration (self w) (self (snd (next g w)))) /\
  (forall w : World,
     exists universes outcome w',
       refresh w = Some (universes, outcome, w') /\
       same_configuration (self w) (self w')) /\
  (forall (symbol : Symbol.t) (w : World),
     self (snd (CreateOptionChain symbol w)) = self w) /\
  (forall (symbol : Symbol.t) (settings : UniverseSettings.t)
          (initializer : ISecurityInitializer) (w : World),
     self (snd (CreateOptionChainSecurity symbol settings initializer w)) = self w) /\
  (forall w : World, snd (GetNextRefreshTimeUtc w) = w) /\
  (forall w : World, snd (CreateUniverses w) = w).
Proof.
  split; [|split; [|split; [|split; [|split]]]].
  - intros [|remaining seen|] w; simpl.
    + rewrite CreateUniverses_start_eq.
      destruct (PyTime.add _ _) as [sum|]; [|apply same_configuration_refl].
      eapply same_configuration_eq; [apply CreateUniverses_loop_frame|].
      apply started_frame.
    + eapply same_configuration_eq; [apply CreateUniverses_loop_frame|].
      apply same_configuration_refl.
    + apply same_configuration_refl.
  - intros w. rewrite refresh_eq, CreateUniverses_start_eq.
    destruct (PyTime.add _ _) as [sum|].
    + pose proof (run_loop_frame
                    (optionChainSymbolSelector (self w) (QCAlgorithm.UtcTime (algorithm w)))
                    [] (started sum w)) as (Hself & _ & _).
      destruct (run_loop _ [] (started sum w)) as [[universes outcome] w'].
      exists universes, outcome, w'. split; [reflexivity|].
      eapply same_configuration_eq; [exact Hself|]. apply started_frame.
    + eexists [], _, w. split; [reflexivity|apply same_configuration_refl].
  - intros symbol w. apply CreateOptionChain_frame.
  - intros symbol settings initializer w.
    by rewrite CreateOptionChainSecurity_eq.
  - reflexivity.
  - reflexivity.
Qed.


(** ** Beyond the refresh policy: errors, edges and effects *)

(** *** The first request *)

(** X1: when the host time plus the interval is no representable datetime,
    the first request raises [OverflowError] and leaves the world exactly
    as it was: the refresh time is not written, nothing is logged, no
    security is built; the generator is finished, and a whole refresh
    yields nothing and ends with that error. *)
Theorem overflow_stops_first_request (w : World) :
  PyTime.add (QCAlgorithm.UtcTime (algorithm w)) (refreshInterval (self w)) = None ->
  next Created w = (Raised (OverflowError "date value out of range"), Closed, w) /\
  refresh w = Some ([], Failed (OverflowError "date value out of range"), w).
Proof.
  intros Hsum. split.
  - simpl. by rewrite CreateUniverses_start_eq, Hsum.
  - by rewrite refresh_eq, CreateUniverses_start_eq, Hsum.
Qed.

Lemma overflow_stops_first_request_witness :
  refresh Sample.at_last_moment =
    Some ([], Failed (OverflowError "date value out of range"), Sample.at_last_moment).
Proof.
  apply (overflow_stops_first_request Sample.at_last_moment). reflexivity.
Defined.

(** The loop hands back a suspended generator with a universe and a
    finished one otherwise. *)
Lemma CreateUniverses_loop_generator symbols : forall seen w,
  match CreateUniverses_loop symbols seen w with
  | (Yield _, g', _) => exists remaining seen', g' = Suspended remaining seen'
  | (_, g', _) => g' = Closed
  end.
Proof.
  induction symbols as [|x rest IH]; intros seen w; simpl; [reflexivity|].
  destruct (negb (bool_decide _)); [reflexivity|].
  destruct (negb (set_contains _ seen)); [|apply IH].
  destruct (CreateOptionChain x w) as [[universe|e] w1]; [|reflexivity].
  by eexists _, _.
Qed.

(** X2: a generator that has stopped or raised is finished for good: every
    later request gives [StopIteration] and leaves the world as it is.  In
    particular the symbols after one that made the loop raise are never
    visited. *)
Theorem finished_generator_stays_finished (g : Generator) (w : World)
    (r : Resumed) (g' : Generator) (w' : World) :
  next g w = (r, g', w') ->
  ~ is_yield r ->
  g' = Closed /\
  forall w2 : World, next g' w2 = (StopIteration, Closed, w2).
Proof.
  intros Hnext Hr.
  assert (g' = Closed) as ->; [|by split].
  destruct g as [|remaining seen|]; simpl in Hnext.
  - destruct (CreateUniverses_start w) as [[symbols|e] w1]; [|by simplify_eq].
    pose proof (CreateUniverses_loop_generator symbols [] w1) as Hloop.
    rewrite Hnext in Hloop. destruct r; simpl in Hr; by try tauto.
  - pose proof (CreateUniverses_loop_generator remaining seen w) as Hloop.
    rewrite Hnext in Hloop. destruct r; simpl in Hr; by try tauto.
  - by simplify_eq.
Qed.

(** The first request raises at the MSFT equity; the generator is then
    finished, and the two contracts of AAPL behind it are never visited. *)
Lemma finished_generator_stays_finished_witness :
  fst (next Created Sample.equity_first)
    = (Raised InvalidSelectorOutput, Closed) /\
  forall w2 : World, next Closed w2 = (StopIteration, Closed, w2).
Proof.
  split; [reflexivity|].
  apply (finished_generator_stays_finished Created Sample.equity_first
           (Raised InvalidSelectorOutput) Closed
           (snd (next Created Sample.equity_first))).
  - reflexivity.
  - simpl. tauto.
Defined.

(** X3: when the selector returns nothing and the time plus the interval is
    representable, the refresh yields nothing and ends normally; all it
    does is write the refresh time and log one line. *)
Theorem empty_selection_only_sets_refresh_time (w : World) (sum : Z) :
  optionChainSymbolSelector (self w) (QCAlgorithm.UtcTime (algorithm w)) = [] ->
  PyTime.add (QCAlgorithm.UtcTime (algorithm w)) (refreshInterval (self w)) = Some sum ->
  exists w',
    refresh w = Some ([], Exhausted, w') /\
    nextRefreshTimeUtc (self w') = PyTime.date sum /\
    calls w' = calls w ++ [Log (RefreshingUniverses (QCAlgorithm.UtcTime (algorithm w)))] /\
    heap w' = heap w /\
    algorithm w' = algorithm w.
Proof.
  intros Hnone Hsum. exists (started sum w).
  rewrite refresh_eq, CreateUniverses_start_eq, Hsum, Hnone. by repeat split.
Qed.

Lemma empty_selection_only_sets_refresh_time_witness :
  exists w',
    refresh Sample.nothing_selected = Some ([], Exhausted, w') /\
    nextRefreshTimeUtc (self w') = PyTime.Date 735389.
Proof.
  destruct (empty_selection_only_sets_refresh_time Sample.nothing_selected
              (Sample.morning + Sample.one_day) eq_refl eq_refl)
    as (w' & Hrun & Hdate & _).
  exists w'. by split.
Defined.

(** X4: the refresh date counts whole days only.  With the host time at
    [time] into day [days] and an interval of [k] days and [extra], the
    refresh time after the first request is the date [days + k] as long as
    [time + extra] stays within the day; so an interval below one day that
    does not reach midnight gives the date of the host time itself. *)
Theorem refresh_date_counts_whole_days (w : World) (days time k extra : Z) :
  QCAlgorithm.UtcTime (algorithm w) = days * PyTime.us_per_day + time ->
  refreshInterval (self w) = k * PyTime.us_per_day + extra ->
  0 <= time -> 0 <= extra -> time + extra < PyTime.us_per_day ->
  PyTime.representable
    (QCAlgorithm.UtcTime (algorithm w) + refreshInterval (self w)) = true ->
  nextRefreshTimeUtc (self (snd (next Created w))) = PyTime.Date (days + k).
Proof.
  intros Htime Hinterval Ht He Hday Hrep.
  assert (PyTime.add (QCAlgorithm.UtcTime (algorithm w)) (refreshInterval (self w))
          = Some ((days + k) * PyTime.us_per_day + (time + extra))) as Hsum.
  { unfold PyTime.add. rewrite Hrep. f_equal. rewrite Htime, Hinterval. lia. }
  rewrite (next_Created_self w _ Hsum). simpl.
  apply date_drops_time_of_day. lia.
Qed.

Lemma refresh_date_counts_whole_days_witness :
  nextRefreshTimeUtc (self (snd (next Created Sample.two_days_and_a_bit)))
    = PyTime.Date (735388 + 2).
Proof.
  apply (refresh_date_counts_whole_days Sample.two_days_and_a_bit
           735388 37800000000 2 5400000000); try reflexivity.
  - discriminate.
  - discriminate.
Defined.

(** *** What is built, and when *)

(** One step of the loop: a universe comes with exactly one new security,
    at the end of the heap; without a universe the heap is as it was. *)
Lemma CreateUniverses_loop_heap symbols : forall seen w,
  match CreateUniverses_loop symbols seen w with
  | (Yield universe, _, w') =>
      OptionChainUniverse.Option universe = length (heap w) /\
      exists security,
        heap w' = heap w ++ [security] /\
        Security.IsTradable security = false /\
        Security.ContractFilter security = Some self_Filter
  | (_, _, w') => heap w' = heap w
  end.
Proof.
  induction symbols as [|x rest IH]; intros seen w; simpl; [reflexivity|].
  destruct (negb (bool_decide _)); [reflexivity|].
  destruct (negb (set_contains _ seen)); [|apply IH].
  destruct (CreateOptionChain x w) as [[universe|e] w1] eqn:Hx.
  - apply CreateOptionChain_returns in Hx as (_ & c & _ & _ & -> & ->).
    split; [reflexivity|]. by eexists.
  - by eapply CreateOptionChain_raises_heap.
Qed.

(** X5: one request builds at most one chain.  Whatever the generator is
    asked, the host algorithm, and with it the registry of securities, is
    afterwards as it was; a request that yields a universe has added
    exactly one security, the universe's own, not tradable and with the
    filter, after the existing ones; a request that stops or raises has
    added none.  The symbols behind the one that yielded are not touched
    before the caller asks again. *)
Theorem request_builds_at_most_one_chain (g : Generator) (w : World) :
  algorithm (snd (next g w)) = algorithm w /\
  match next g w with
  | (Yield universe, _, w') =>
      OptionChainUniverse.Option universe = length (heap w) /\
      exists security,
        heap w' = heap w ++ [security] /\
        Security.IsTradable security = false /\
        Security.ContractFilter security = Some self_Filter
  | (_, _, w') => heap w' = heap w
  end.
Proof.
  destruct g as [|remaining seen|]; simpl.
  - rewrite CreateUniverses_start_eq.
    destruct (PyTime.add _ _) as [sum|]; [|by split].
    split.
    + pose proof (CreateUniverses_loop_frame
                    (optionChainSymbolSelector (self w) (QCAlgorithm.UtcTime (algorithm w)))
                    [] (started sum w)) as (_ & Halg & _).
      by rewrite Halg.
    + apply (CreateUniverses_loop_heap _ [] (started sum w)).
  - split; [apply CreateUniverses_loop_frame|apply CreateUniverses_loop_heap].
  - by split.
Qed.

Lemma run_loop_heap symbols : forall seen w,
  exists new,
    heap (snd (run_loop symbols seen w)) = heap w ++ new /\
    length new = length (fst (fst (run_loop symbols seen w))) /\
    forall (i : nat) universe,
      fst (fst (run_loop symbols seen w)) !! i = Some universe ->
      OptionChainUniverse.Option universe = (length (heap w) + i)%nat /\
      exists security,
        new !! i = Some security /\
        Security.IsTradable security = false /\
        Security.ContractFilter security = Some self_Filter.
Proof.
  induction symbols as [|x rest IH]; intros seen w; simpl.
  - exists []. rewrite app_nil_r.
    split; [reflexivity|split; [reflexivity|]].
    intros i u Hi. by rewrite lookup_nil in Hi.
  - destruct (negb (bool_decide _)).
    { exists []. simpl. rewrite app_nil_r.
      split; [reflexivity|split; [reflexivity|]].
      intros i u Hi. by rewrite lookup_nil in Hi. }
    destruct (negb (set_contains _ seen)); [|apply IH].
    destruct (CreateOptionChain x w) as [[universe|e] w1] eqn:Hx.
    + apply CreateOptionChain_returns in Hx as (_ & c & _ & _ & -> & ->).
      destruct (IH (set_add (Symbol.Underlying x) seen) (built x c w))
        as (new & Hheap & Hlen & Hall).
      destruct (run_loop rest _ (built x c w)) as [[universes outcome] w2].
      simpl in *. eexists (_ :: new). split; [|split].
      * rewrite Hheap, <- app_assoc. reflexivity.
      * simpl. by rewrite Hlen.
      * intros [|i] u Hi; simpl in Hi.
        -- simplify_eq. split; [simpl; lia|]. by eexists.
        -- destruct (Hall i u Hi) as (Href & security & Hnew & Hsec).
           split; [|by exists security].
           rewrite Href, length_app. simpl. lia.
    + exists []. simpl. rewrite app_nil_r.
      rewrite (CreateOptionChain_raises_heap _ _ _ _ Hx).
      split; [reflexivity|split; [reflexivity|]].
      intros i u Hi. by rewrite lookup_nil in Hi.
Qed.

(** X6: a refresh keeps the securities it found and adds one per universe
    it yields, in the order of the universes: the [i]-th universe refers to
    the [i]-th new security, which is not tradable and has the filter.  It
    never writes to the host algorithm, so it adds nothing to the registry
    [algorithm.Securities], and it never drops a logged line. *)
Theorem refresh_adds_one_security_per_universe (w : World) :
  exists universes outcome w' new,
    refresh w = Some (universes, outcome, w') /\
    algorithm w' = algorithm w /\
    heap w' = heap w ++ new /\
    length new = length universes /\
    forall (i : nat) universe,
      universes !! i = Some universe ->
      OptionChainUniverse.Option universe = (length (heap w) + i)%nat /\
      exists security,
        new !! i = Some security /\
        Security.IsTradable security = false /\
        Security.ContractFilter security = Some self_Filter.
Proof.
  rewrite refresh_eq, CreateUniverses_start_eq.
  destruct (PyTime.add _ _) as [sum|].
  - set (symbols := optionChainSymbolSelector (self w) (QCAlgorithm.UtcTime (algorithm w))).
    destruct (run_loop_heap symbols [] (started sum w)) as (new & Hheap & Hlen & Hall).
    pose proof (run_loop_frame symbols [] (started sum w)) as (_ & Halg & _).
    destruct (run_loop symbols [] (started sum w)) as [[universes outcome] w'].
    exists universes, outcome, w', new. simpl in *.
    split; [reflexivity|]. by repeat (split; [assumption|]).
  - exists [], (Failed (OverflowError "date value out of range")), w, [].
    rewrite app_nil_r. do 4 (split; [reflexivity|]).
    intros i u Hi. by rewrite lookup_nil in Hi.
Qed.

Lemma refresh_adds_one_security_per_universe_witness :
  exists universes w',
    refresh Sample.two_underlyings = Some (universes, Exhausted, w') /\
    length (heap w') = 2%nat /\
    (OptionChainUniverse.Option <$> universes) = [0%nat; 1%nat].
Proof.
  destruct (refresh_adds_one_security_per_universe Sample.two_underlyings)
    as (universes & outcome & w' & new & Hrun & _ & Hheap & Hlen & Hall).
  vm_compute in Hrun. simplify_eq.
  eexists _, _. split; [vm_compute; reflexivity|].
  split; reflexivity.
Defined.

(** *** Symbols that repeat an underlying *)

Lemma first_seen_idempotent symbols : forall seen,
  first_seen (first_seen symbols seen) seen = first_seen symbols seen.
Proof.
  induction symbols as [|x rest IH]; intros seen; [reflexivity|].
  destruct (set_contains (Symbol.Underlying x) seen) eqn:Hx.
  - rewrite first_seen_cons_old by assumption. apply IH.
  - rewrite (first_seen_cons_new x rest) by assumption.
    rewrite first_seen_cons_new by assumption. by rewrite IH.
Qed.

Lemma first_seen_options symbols : forall seen,
  Forall is_option symbols -> Forall is_option (first_seen symbols seen).
Proof.
  induction symbols as [|x rest IH]; intros seen Hall; [constructor|].
  apply Forall_cons in Hall as [Hx Hrest]. simpl.
  destruct (set_contains (Symbol.Underlying x) seen); [by apply IH|].
  constructor; [assumption|by apply IH].
Qed.

(** [CreateOptionChain] does not look at the selector. *)
Lemma CreateOptionChain_with_selector selector symbol w :
  CreateOptionChain symbol (with_selector selector w) =
    (fst (CreateOptionChain symbol w),
     with_selector selector (snd (CreateOptionChain symbol w))).
Proof.
  destruct (decide (is_option symbol)) as [Hty|Hty].
  - rewrite !CreateOptionChain_eq by assumption. simpl.
    destruct (canonical symbol) as [c|e]; [|reflexivity].
    change (registered c (with_selector selector w)) with (registered c w).
    destruct (registered c w); reflexivity.
  - by rewrite !CreateOptionChain_not_option by assumption.
Qed.

Lemma build_chains_with_selector selector symbols : forall w,
  build_chains symbols (with_selector selector w) =
    (fst (build_chains symbols w),
     with_selector selector (snd (build_chains symbols w))).
Proof.
  induction symbols as [|x rest IH]; intros w; simpl; [reflexivity|].
  rewrite CreateOptionChain_with_selector.
  destruct (CreateOptionChain x w) as [[universe|e] w1]; simpl; [|reflexivity].
  rewrite IH. by destruct (build_chains rest w1) as [[universes e] w2].
Qed.

(** X7: symbols that repeat an underlying are without any effect.  When
    the selector returns option symbols only, a refresh gives the same
    universes, ends the same way and leaves the same world as a refresh of
    the same model whose selector returns just the first symbol of each
    underlying. *)
Theorem repeated_underlyings_change_nothing (w : World) :
  Forall is_option
    (optionChainSymbolSelector (self w) (QCAlgorithm.UtcTime (algorithm w))) ->
  exists universes outcome w',
    refresh w = Some (universes, outcome, w') /\
    refresh
      (with_selector
         (fun _ => first_seen
                     (optionChainSymbolSelector (self w)
                        (QCAlgorithm.UtcTime (algorithm w))) [])
         w)
    = Some (universes, outcome,
            with_selector
              (fun _ => first_seen
                          (optionChainSymbolSelector (self w)
                             (QCAlgorithm.UtcTime (algorithm w))) [])
              w').
Proof.
  intros Hall.
  set (symbols := optionChainSymbolSelector (self w) (QCAlgorithm.UtcTime (algorithm w))) in *.
  rewrite !refresh_eq, !CreateUniverses_start_eq.
  change (QCAlgorithm.UtcTime (algorithm (with_selector (fun _ => first_seen symbols []) w)))
    with (QCAlgorithm.UtcTime (algorithm w)).
  change (refreshInterval (self (with_selector (fun _ => first_seen symbols []) w)))
    with (refreshInterval (self w)).
  destruct (PyTime.add _ _) as [sum|]; [|by eexists _, _, _].
  change (optionChainSymbolSelector
            (self (with_selector (fun _ => first_seen symbols []) w))
            (QCAlgorithm.UtcTime (algorithm w)))
    with (first_seen symbols []).
  fold symbols.
  rewrite !run_loop_options by auto using first_seen_options.
  rewrite first_seen_idempotent.
  change (started sum (with_selector (fun _ => first_seen symbols []) w))
    with (with_selector (fun _ => first_seen symbols []) (started sum w)).
  rewrite build_chains_with_selector.
  destruct (build_chains (first_seen symbols []) (started sum w))
    as [[universes e] w'].
  by eexists _, _, _.
Qed.

Lemma repeated_underlyings_change_nothing_witness :
  exists universes w',
    refresh Sample.repeated_contracts = Some (universes, Exhausted, w') /\
    refresh (with_selector (fun _ => [Sample.AAPL_1; Sample.GOOG_1])
               Sample.repeated_contracts)
      = Some (universes, Exhausted,
              with_selector (fun _ => [Sample.AAPL_1; Sample.GOOG_1]) w') /\
    length universes = 2%nat.
Proof.
  destruct (repeated_underlyings_change_nothing Sample.repeated_contracts)
    as (universes & outcome & w' & Hrun & Hsame).
  { repeat constructor. }
  vm_compute in Hrun. simplify_eq.
  eexists _, _. split; [vm_compute; reflexivity|].
  split; [exact Hsame|reflexivity].
Defined.

(** *** The security behind a universe *)

(** X8: the security behind a universe that [CreateOptionChain] returns was
    ordered from the host's factory with the universe's own settings,
    initializer and live mode, for the symbol the security carries, as a
    feed that is neither internal nor custom; its exchange hours, time zone
    and symbol properties were looked up for the market and the underlying
    of that symbol, the canonical one, with the option security type. *)
Theorem chain_security_ordered_with_universe_settings (symbol : Symbol.t)
    (w : World) (universe : OptionChainUniverse.t) (w' : World) :
  CreateOptionChain symbol w = (Ok universe, w') ->
  exists args,
    CreateSecurity (OptionChainUniverse.Option universe) args ∈ calls w' /\
    (Security.Symbol <$> heap w' !! OptionChainUniverse.Option universe)
      = Some (symbol_arg args) /\
    resolution args
      = UniverseSettings.Resolution (OptionChainUniverse.UniverseSettings universe) /\
    fillDataForward args
      = UniverseSettings.FillForward (OptionChainUniverse.UniverseSettings universe) /\
    leverage args
      = UniverseSettings.Leverage (OptionChainUniverse.UniverseSettings universe) /\
    extendedMarketHours args
      = UniverseSettings.ExtendedMarketHours
          (OptionChainUniverse.UniverseSettings universe) /\
    securityInitializer_arg args = OptionChainUniverse.SecurityInitializer universe /\
    isLiveMode args = OptionChainUniverse.LiveMode universe /\
    OptionChainUniverse.LiveMode universe = QCAlgorithm.LiveMode (algorithm w) /\
    isInternalFeed args = false /\ isCustomData args = false /\
    addToSymbolCache args = false /\ isFilteredSubscription args = false /\
    exchangeHours args =
      ExchangeHours
        (MarketHoursDatabase_GetEntry (data w)
           (SecurityIdentifier.Market (Symbol.ID (symbol_arg args)))
           (Symbol.Underlying (symbol_arg args)) SecurityType.Option) /\
    dataTimeZone args =
      DataTimeZone
        (MarketHoursDatabase_GetEntry (data w)
           (SecurityIdentifier.Market (Symbol.ID (symbol_arg args)))
           (Symbol.Underlying (symbol_arg args)) SecurityType.Option) /\
    symbolProperties args =
      SymbolPropertiesDatabase_GetSymbolProperties (data w)
        (SecurityIdentifier.Market (Symbol.ID (symbol_arg args)))
        (Symbol.Underlying (symbol_arg args)) SecurityType.Option
        (CashBook_AccountCurrency (data w)).
Proof.
  intros (_ & c & _ & _ & -> & ->)%CreateOptionChain_returns.
  exists (chain_args c (effective_settings w) (effective_initializer w) w).
  split.
  - simpl. rewrite elem_of_app, !elem_of_cons. right. right. right. by left.
  - split; [|by repeat split].
    simpl. by rewrite lookup_last.
Qed.

Lemma chain_security_ordered_with_universe_settings_witness :
  exists args,
    CreateSecurity 0%nat args
      ∈ calls (snd (CreateOptionChain Sample.AAPL_1 Sample.one_contract)) /\
    symbol_arg args = Sample.chain "AAPL" /\
    resolution args = Resolution.Minute /\
    leverage args = 2.
Proof.
  destruct (CreateOptionChain Sample.AAPL_1 Sample.one_contract)
    as [[universe|e] w'] eqn:Hrun; [|vm_compute in Hrun; discriminate].
  destruct (chain_security_ordered_with_universe_settings _ _ _ _ Hrun)
    as (args & Hin & Hsym & Hres & _ & Hlev & _).
  vm_compute in Hrun. simplify_eq.
  exists args. split; [exact Hin|]. simpl in *. simplify_eq.
  by repeat split.
Defined.

(** *** A chain that is registered already *)

(** X9: when the registry has an entry whose key equals the canonical
    symbol, [CreateOptionChain] logs two lines and raises an
    [AttributeError]; the security of the entry is left as it is, neither
    given the filter nor made non-tradable, no security is built, and the
    model and the host algorithm are as they were. *)
Theorem registered_chain_is_left_untouched (symbol c : Symbol.t)
    (entry : KeyValuePair.t) (w : World) :
  Symbol.SecurityType symbol = SecurityType.Option ->
  canonical symbol = Ok c ->
  entry ∈ QCAlgorithm.Securities (algorithm w) ->
  Symbol.eqb (KeyValuePair.Key entry) c = true ->
  exists message w',
    CreateOptionChain symbol w = (Raise (AttributeError message), w') /\
    heap w' = heap w /\
    calls w' = calls w ++
      [Log (CreatingOptionChain (QCAlgorithm.UtcTime (algorithm w)) symbol);
       Log (ResolvedExistingOptionChainSecurity
              (QCAlgorithm.UtcTime (algorithm w)) c)] /\
    self w' = self w /\ algorithm w' = algorithm w.
Proof.
  intros Hty Hc Hin Heq.
  rewrite CreateOptionChain_eq by assumption. simpl. rewrite Hc.
  destruct (registered c w) as [|first others] eqn:Hreg.
  - exfalso. eapply (filter_nil_not_elem_of _ _ entry Hreg); [|exact Hin].
    by rewrite Heq.
  - eexists _, _. split; [reflexivity|]. simpl.
    rewrite <- app_assoc. by repeat split.
Qed.

Lemma registered_chain_is_left_untouched_witness :
  exists message w',
    CreateOptionChain Sample.AAPL_1 Sample.chain_registered
      = (Raise (AttributeError message), w') /\
    heap w' = [Sample.AAPL_chain_security].
Proof.
  destruct (registered_chain_is_left_untouched Sample.AAPL_1 (Sample.chain "AAPL")
              Sample.AAPL_entry Sample.chain_registered)
    as (message & w' & Hrun & Hheap & _).
  - reflexivity.
  - reflexivity.
  - apply elem_of_cons. by left.
  - reflexivity.
  - by exists message, w'.
Defined.

(** *** Contracts of one chain *)

(** X10: which contract is passed does not matter.  For two option symbols
    that are not canonical, on the same market and with underlyings of the
    same display value, [CreateOptionChain] in the same world gives the
    same result, universe or exception, and the same securities; only the
    first logged line names the contract. *)
Theorem chain_does_not_depend_on_contract (first second : Symbol.t)
    (underlying1 underlying2 : Symbol.t) (w : World) :
  Symbol.SecurityType first = SecurityType.Option ->
  Symbol.SecurityType second = SecurityType.Option ->
  Symbol.IsCanonical first = false ->
  Symbol.IsCanonical second = false ->
  Symbol.Underlying first = Some underlying1 ->
  Symbol.Underlying second = Some underlying2 ->
  Symbol.Value underlying1 = Symbol.Value underlying2 ->
  SecurityIdentifier.Market (Symbol.ID first)
    = SecurityIdentifier.Market (Symbol.ID second) ->
  fst (CreateOptionChain first w) = fst (CreateOptionChain second w) /\
  heap (snd (CreateOptionChain first w)) = heap (snd (CreateOptionChain second w)) /\
  exists later,
    calls (snd (CreateOptionChain first w)) =
      calls w ++ Log (CreatingOptionChain (QCAlgorithm.UtcTime (algorithm w)) first)
              :: later /\
    calls (snd (CreateOptionChain second w)) =
      calls w ++ Log (CreatingOptionChain (QCAlgorithm.UtcTime (algorithm w)) second)
              :: later.
Proof.
  intros Hty1 Hty2 Hcan1 Hcan2 Hu1 Hu2 Hvalue Hmarket.
  rewrite !CreateOptionChain_eq by assumption.
  unfold canonical. rewrite Hcan1, Hcan2, Hu1, Hu2.
  assert (rewritten first underlying1 = rewritten second underlying2) as ->.
  { unfold rewritten. by rewrite Hvalue, Hmarket. }
  simpl. destruct (registered (rewritten second underlying2) w); simpl.
  - split; [reflexivity|]. split; [reflexivity|]. by eexists.
  - split; [reflexivity|]. split; [reflexivity|].
    eexists. rewrite <- !app_assoc. by split.
Qed.

Lemma chain_does_not_depend_on_contract_witness :
  fst (CreateOptionChain Sample.AAPL_1 Sample.one_contract)
    = fst (CreateOptionChain Sample.AAPL_2 Sample.one_contract) /\
  heap (snd (CreateOptionChain Sample.AAPL_1 Sample.one_contract))
    = heap (snd (CreateOptionChain Sample.AAPL_2 Sample.one_contract)).
Proof.
  destruct (chain_does_not_depend_on_contract Sample.AAPL_1 Sample.AAPL_2
              (Sample.equity "AAPL") (Sample.equity "AAPL") Sample.one_contract)
    as (Hresult & Hheap & _); try reflexivity.
  by split.
Defined.

(** *** The order of the universes *)

Lemma first_seen_sublist symbols : forall seen,
  first_seen symbols seen `sublist_of` symbols.
Proof.
  induction symbols as [|x rest IH]; intros seen; simpl; [constructor|].
  destruct (set_contains (Symbol.Underlying x) seen).
  - by apply sublist_cons.
  - by apply sublist_skip.
Qed.

(** X11: the universes come in the order of the selector.  The symbols
    [chosen] whose chains a refresh yields are picked from the selector's
    output without changing its order, and the [i]-th universe is the
    chain of the [i]-th of them: it refers to the [i]-th security the
    refresh added, which carries the canonical symbol of that chosen
    symbol, and the log names the chosen symbols in this order as the
    arguments of [CreateOptionChain], followed by at most one symbol whose
    chain could not be built. *)
Theorem refresh_yields_in_selector_order (w : World) :
  exists chosen universes outcome w',
    refresh w = Some (universes, outcome, w') /\
    chosen `sublist_of`
      optionChainSymbolSelector (self w) (QCAlgorithm.UtcTime (algorithm w)) /\
    length chosen = length universes /\
    (forall (i : nat) c universe,
       chosen !! i = Some c -> universes !! i = Some universe ->
       OptionChainUniverse.Option universe = (length (heap w) + i)%nat /\
       exists canonical_symbol,
         canonical c = Ok canonical_symbol /\
         (Security.Symbol <$> heap w' !! OptionChainUniverse.Option universe)
           = Some canonical_symbol) /\
    (exists failed,
       chain_requests (calls w') = chain_requests (calls w) ++ chosen ++ failed /\
       (length failed <= 1)%nat).
Proof.
  destruct (refresh_chosen w)
    as (chosen & failed & more & universes & outcome & w' & w_mid & Hrun & Hfirst
        & Hbuild & Hheap0 & Hlog0 & Hheap & Hlog & Hlen1 & Hend).
  destruct (build_chains_trace _ _ _ _ Hbuild)
    as (Hlen & Hrequests & new & Hnew & Hall).
  exists chosen, universes, outcome, w'.
  split; [assumption|]. split; [|split; [assumption|split]].
  - etransitivity; [|apply (first_seen_sublist _ [])].
    rewrite Hfirst. by apply sublist_inserts_r.
  - intros i c u Hc Hu.
    destruct (Hall i c u Hc Hu) as (Href & canonical_symbol & Hcan & Hsym).
    rewrite Hheap0 in Href. split; [assumption|].
    exists canonical_symbol. split; [assumption|].
    rewrite Hheap, Hnew, Href, Hheap0.
    rewrite lookup_app_r by lia.
    by replace (length (heap w) + i - length (heap w))%nat with i by lia.
  - exists failed. split; [|assumption].
    by rewrite Hlog, Hrequests, Hlog0, <- app_assoc.
Qed.

(** Contracts of AAPL, AAPL, GOOG and AAPL again: the chain of AAPL comes
    first, then the chain of GOOG. *)
Lemma refresh_yields_in_selector_order_witness :
  exists first second w',
    refresh Sample.repeated_contracts = Some ([first; second], Exhausted, w') /\
    chain_requests (calls w') = [Sample.AAPL_1; Sample.GOOG_1] /\
    (Security.Symbol <$> heap w' !! OptionChainUniverse.Option first)
      = Some (Sample.chain "AAPL") /\
    (Security.Symbol <$> heap w' !! OptionChainUniverse.Option second)
      = Some (Sample.chain "GOOG").
Proof.
  destruct (refresh_yields_in_selector_order Sample.repeated_contracts)
    as (chosen & universes & outcome & w' & Hrun & _).
  vm_compute in Hrun. simplify_eq.
  eexists _, _, _. split; [vm_compute; reflexivity|].
  repeat split.
Defined.
